(** * GitGlance: the client-side data-synchronisation and view-state engine

    A shallow embedding of the React component [App] and of its two
    enrichment components [AIInsight] and [RepoLanguages].

    The repository holds several versions of the application.  The module
    [AppTsx] embeds [src/App.tsx] (its first component [App], lines 737-1339,
    with [AIInsight] at 236-300 and [RepoLanguages] at 302-384); the second
    listing in that file is an earlier version of the same component without
    the smart filter.  The module [IndexTsx] embeds the self-contained entry
    point that ends in [ReactDOM.createRoot(...).render(<App />)] (kept in
    the same source tree behind the deployment notes), which is the hardened
    sibling of the same functions: it adds an [AbortController], an
    [errorMessage] state, a [try]/[catch] around the storage access and two
    process-wide caches.

    Conventions of the embedding:
    - a [useState] cell is a field of the record [State]; a setter is a
      function [State -> State]; an event handler together with the effects
      it triggers is one atomic state transformer;
    - an [async] function is cut at its [await]: [..._begin] is the
      synchronous prefix, which may issue a request, and [..._resume] is the
      continuation run when the request settles;
    - JavaScript numbers that hold identifiers, page indices and epoch
      milliseconds are [Z]; strings are [string] and [toLowerCase] folds the
      ASCII letters;
    - [Date.now()] is an argument [now] of the handler that reads it. *)

From Stdlib Require Import ZArith String Ascii List Bool Lia.
From stdpp Require Import base list gmap strings pretty sorting.
Import ListNotations.

Local Open Scope string_scope.
Local Open Scope list_scope.
Local Open Scope Z_scope.

(** ** Data model ([src/types.ts]) *)

Record Owner := mkOwner {
  login : string;
  avatar_url : string
}.

(** [GithubRepo], and [SavedRepo] which extends it with [savedAt].  Objects
    of both interfaces flow through the same arrays ([filteredRepos] selects
    either [savedRepos] or [repos]), so one record carries the extra field as
    an optional one: [savedAt = None] on an object that came from the search
    API. *)
Record GithubRepo := mkRepo {
  id : Z;
  name : string;
  full_name : string;
  description : option string;
  html_url : string;
  stargazers_count : Z;
  forks_count : Z;
  language : option string;
  owner : Owner;
  created_at : string;
  updated_at : string;
  watchers_count : Z;
  open_issues_count : Z;
  topics : list string;
  savedAt : option Z
}.

Definition SavedRepo := GithubRepo.

Inductive TabType := trending | latest | saved.
Inductive TimeRange := today | week | month.
Inductive ToastType := success | info | error.

Record Toast := mkToast {
  toast_id : Z;
  toast_message : string;
  toast_type : ToastType
}.

(** [x !== null] *)
Definition is_Some_b {A} (o : option A) : bool :=
  match o with Some _ => true | None => false end.

Definition TabType_eqb (a b : TabType) : bool :=
  match a, b with
  | trending, trending | latest, latest | saved, saved => true
  | _, _ => false
  end.

Definition TimeRange_eqb (a b : TimeRange) : bool :=
  match a, b with
  | today, today | week, week | month, month => true
  | _, _ => false
  end.

(** [{ ...repo, savedAt: Date.now() }] *)
Definition withSavedAt (repo : GithubRepo) (now : Z) : SavedRepo :=
  {| id := id repo; name := name repo; full_name := full_name repo;
     description := description repo; html_url := html_url repo;
     stargazers_count := stargazers_count repo;
     forks_count := forks_count repo; language := language repo;
     owner := owner repo; created_at := created_at repo;
     updated_at := updated_at repo; watchers_count := watchers_count repo;
     open_issues_count := open_issues_count repo; topics := topics repo;
     savedAt := Some now |}.

Definition ids (l : list GithubRepo) : list Z := List.map id l.

(** ** Strings: [toLowerCase], [includes], [trim]

    A string is the sequence of its bytes.  On ASCII text, the bytes below
    128, [toLowerCase] and [trim] below are [String.prototype.toLowerCase]
    and [String.prototype.trim]: the former folds A to Z and nothing else,
    the latter strips TAB, LF, VT, FF, CR and SPACE.  Outside ASCII
    JavaScript folds and strips more (U+00A0 and U+FEFF are white space,
    the Kelvin sign folds to k); a statement that depends on what these two
    functions do to a text is made of ASCII text, see [asciiText]. *)

Definition lower_ascii (c : ascii) : ascii :=
  let n := nat_of_ascii c in
  if ((65 <=? n) && (n <=? 90))%nat then ascii_of_nat (n + 32) else c.

Fixpoint toLowerCase (s : string) : string :=
  match s with
  | EmptyString => EmptyString
  | String c s' => String (lower_ascii c) (toLowerCase s')
  end.

(** [s.includes(q)] *)
Fixpoint includes (s q : string) : bool :=
  if String.prefix q s then true
  else match s with
       | EmptyString => false
       | String _ s' => includes s' q
       end.

(** ECMAScript white space that occurs in ASCII text: TAB, LF, VT, FF, CR
    and SPACE. *)
Definition is_space (c : ascii) : bool :=
  let n := nat_of_ascii c in
  ((n =? 32) || ((9 <=? n) && (n <=? 13)))%nat.

Fixpoint trimStart (s : string) : string :=
  match s with
  | EmptyString => EmptyString
  | String c s' => if is_space c then trimStart s' else s
  end.

Fixpoint trimEnd (s : string) : string :=
  match s with
  | EmptyString => EmptyString
  | String c s' =>
      match trimEnd s' with
      | EmptyString => if is_space c then EmptyString else String c EmptyString
      | t => String c t
      end
  end.

Definition trim (s : string) : string := trimEnd (trimStart s).

(** ASCII text: every byte is below 128. *)
Definition is_ascii (c : ascii) : bool := (nat_of_ascii c <? 128)%nat.

Fixpoint asciiText (s : string) : bool :=
  match s with
  | EmptyString => true
  | String c s' => is_ascii c && asciiText s'
  end.

(** JavaScript truthiness of a string: [!s] holds of the empty string only. *)
Definition truthy (s : string) : bool :=
  match s with EmptyString => false | _ => true end.

(** [q] occurs in [s]: the meaning of "is a substring of". *)
Definition substring_of (q s : string) : Prop :=
  exists pre post, s = String.append pre (String.append q post).

(** "the query is a case-insensitive substring of the text" *)
Definition ci_substring_of (q s : string) : Prop :=
  substring_of (toLowerCase q) (toLowerCase s).

(** ** Completions and the browser collaborators *)

(** A synchronous piece of code either returns or throws. *)
Inductive Completion (A : Type) :=
  | Returns (a : A)
  | Throws (err : string).
Arguments Returns {A} a.
Arguments Throws {A} err.

(** What [await response.json()] yields: the promise rejects with a
    [SyntaxError] carrying [msg] when the body is not JSON; otherwise [items] is the value of [data.items], [None] when
    the property is absent (or null). *)
Inductive Body :=
  | NotJson (msg : string)
  | Json (items : option (list GithubRepo)).

(** How [await fetch(url)] settles: the promise rejects on a network
    failure, rejects with an [AbortError] when its signal was aborted, and
    otherwise resolves with a response that has a status and a body. *)
Inductive FetchOutcome :=
  | NetworkFailure (msg : string)
  | AbortError
  | Response (status : Z) (body : Body).

(** [res.ok] *)
Definition ok (status : Z) : bool := (200 <=? status) && (status <=? 299).

(** How [await ai.models.generateContent(...)] followed by
    [JSON.parse(response.text)] settles in [runSmartFilter]. *)
Inductive AiOutcome :=
  | AiFailure
  | AiIds (matchedIds : list Z).

(** The request issued by [fetchRepos]: the search URL is determined by the
    category, the range, the page and the current date. *)
Record Request := mkRequest {
  req_type : TabType;
  req_range : TimeRange;
  req_page : Z
}.

(** ** Enrichment: requests and component state *)

Inductive NetworkCall :=
  | GenerateContent (repoId : Z)
  | GetLanguages (ownerLogin repoName : string).

Record InsightState := mkInsight {
  insight : option string;
  insight_loading : bool
}.

(** How [await ai.models.generateContent(...)] settles; [text] is
    [response.text], empty when the property is missing. *)
Inductive InsightOutcome :=
  | InsightFailure
  | InsightText (text : string).

Record LanguagesState := mkLanguages {
  languages : list (string * Z);
  languages_loading : bool
}.

(** How the languages request settles: [LanguagesFailure] stands for a
    rejected [fetch], a response that is not [ok], and a body that is not
    JSON. *)
Inductive LanguagesOutcome :=
  | LanguagesFailure
  | LanguagesData (data : list (string * Z)).

(** ** [src/App.tsx] *)

Module AppTsx.

(** The [useState] cells of [App] (lines 738-755).  [isSearchFocused] and
    [selectedRepo] only drive presentation and are left out. *)
Record State := mkState {
  activeTab : TabType;
  activeRange : TimeRange;
  repos : list GithubRepo;
  savedRepos : list SavedRepo;
  isLoading : bool;
  isFetchingMore : bool;
  page : Z;
  hasMore : bool;
  searchQuery : string;
  isSmartFilterMode : bool;
  isAiFiltering : bool;
  aiFilteredIds : option (list Z);
  toasts : list Toast
}.

Definition initial : State :=
  mkState trending week [] [] false false 1 true "" false false None [].

Definition setActiveTab (v : TabType) (s : State) : State :=
  let 'mkState _ b c d e f g h i j k l m := s in mkState v b c d e f g h i j k l m.
Definition setActiveRange (v : TimeRange) (s : State) : State :=
  let 'mkState a _ c d e f g h i j k l m := s in mkState a v c d e f g h i j k l m.
Definition setRepos (v : list GithubRepo) (s : State) : State :=
  let 'mkState a b _ d e f g h i j k l m := s in mkState a b v d e f g h i j k l m.
Definition setSavedRepos (v : list SavedRepo) (s : State) : State :=
  let 'mkState a b c _ e f g h i j k l m := s in mkState a b c v e f g h i j k l m.
Definition setIsLoading (v : bool) (s : State) : State :=
  let 'mkState a b c d _ f g h i j k l m := s in mkState a b c d v f g h i j k l m.
Definition setIsFetchingMore (v : bool) (s : State) : State :=
  let 'mkState a b c d e _ g h i j k l m := s in mkState a b c d e v g h i j k l m.
Definition setPage (v : Z) (s : State) : State :=
  let 'mkState a b c d e f _ h i j k l m := s in mkState a b c d e f v h i j k l m.
Definition setHasMore (v : bool) (s : State) : State :=
  let 'mkState a b c d e f g _ i j k l m := s in mkState a b c d e f g v i j k l m.
Definition setSearchQuery (v : string) (s : State) : State :=
  let 'mkState a b c d e f g h _ j k l m := s in mkState a b c d e f g h v j k l m.
Definition setIsSmartFilterMode (v : bool) (s : State) : State :=
  let 'mkState a b c d e f g h i _ k l m := s in mkState a b c d e f g h i v k l m.
Definition setIsAiFiltering (v : bool) (s : State) : State :=
  let 'mkState a b c d e f g h i j _ l m := s in mkState a b c d e f g h i j v l m.
Definition setAiFilteredIds (v : option (list Z)) (s : State) : State :=
  let 'mkState a b c d e f g h i j k _ m := s in mkState a b c d e f g h i j k v m.
Definition setToasts (v : list Toast) (s : State) : State :=
  let 'mkState a b c d e f g h i j k l _ := s in mkState a b c d e f g h i j k l v.

(** *** Durable save store (lines 759-770) *)

Section Storage.
(** [JSON.parse] on the stored text: [None] when it throws a
    [SyntaxError]. *)
Variable JSON_parse : string -> option (list SavedRepo).
Variable JSON_stringify : list SavedRepo -> string.

(** The mount effect: [stored] is [localStorage.getItem("gitglance_saved")],
    [None] for [null]. *)
Definition loadSavedRepos (stored : option string) (s : State)
  : Completion State :=
  match stored with
  | Some saved_text =>
      if truthy saved_text then
        match JSON_parse saved_text with
        | Some parsed => Returns (setSavedRepos parsed s)
        | None => Throws "SyntaxError"
        end
      else Returns s
  | None => Returns s
  end.

(** The effect on [savedRepos]: the new content of the record. *)
Definition persistSavedRepos (s : State) : option string :=
  Some (JSON_stringify (savedRepos s)).
End Storage.

(** *** Notification queue (lines 772-782) *)

Definition addToast (msg : string) (ty : ToastType) (now : Z) (s : State)
  : State :=
  setToasts (toasts s ++ [mkToast now msg ty]) s.

Definition removeToast (tid : Z) (s : State) : State :=
  setToasts (List.filter (fun t => negb (toast_id t =? tid)) (toasts s)) s.

(** *** Feed fetcher (lines 784-863) *)

(** The updater passed to [setRepos] for a page after the first. *)
Definition appendNew (prev items : list GithubRepo) : list GithubRepo :=
  let existingIds : gset Z := list_to_set (ids prev) in
  let newItems :=
    List.filter (fun r => negb (bool_decide (id r ∈ existingIds))) items in
  prev ++ newItems.

(** [fetchRepos] up to [await fetch(...)]. *)
Definition fetchRepos_begin (type : TabType) (range : TimeRange)
    (pageNum : Z) (s : State) : State * option Request :=
  match type with
  | saved => (s, None)
  | _ =>
      let s1 :=
        if pageNum =? 1
        then setAiFilteredIds None (setIsLoading true s)
        else setIsFetchingMore true s in
      (s1, Some (mkRequest type range pageNum))
  end.

(** [fetchRepos] from the point where [fetch] settles: the rest of the
    [try] block, the [catch] and the [finally]. *)
Definition fetchRepos_resume (rq : Request) (o : FetchOutcome) (s : State)
  : State :=
  let pageNum := req_page rq in
  let s1 :=
    match o with
    | Response _ (Json (Some items)) =>
        let s0 :=
          if pageNum =? 1 then setRepos items s
          else setRepos (appendNew (repos s) items) s in
        setHasMore ((Z.of_nat (length items) =? 30) && (pageNum <? 34)) s0
    | Response _ (Json None) => setHasMore false s
    | Response _ (NotJson _) | NetworkFailure _ | AbortError =>
        setHasMore false s
    end in
  setIsFetchingMore false (setIsLoading false s1).

(** The effect on [activeTab, activeRange] (lines 841-846). *)
Definition resetEffect (s : State) : State * option Request :=
  fetchRepos_begin (activeTab s) (activeRange s) 1
    (setRepos [] (setHasMore true (setPage 1 s))).

(** [onClick={() => setActiveTab(item.id)}]: the effect runs when the
    dependency changed. *)
Definition clickTab (t : TabType) (s : State) : State * option Request :=
  if TabType_eqb t (activeTab s) then (s, None)
  else resetEffect (setActiveTab t s).

(** [onClick={() => setActiveRange(range.id)}] *)
Definition clickRange (r : TimeRange) (s : State) : State * option Request :=
  if TimeRange_eqb r (activeRange s) then (s, None)
  else resetEffect (setActiveRange r s).

Definition loadMore (s : State) : State * option Request :=
  if negb (isLoading s) && negb (isFetchingMore s) && hasMore s
     && negb (TabType_eqb (activeTab s) saved)
  then
    let nextPage := page s + 1 in
    fetchRepos_begin (activeTab s) (activeRange s) nextPage (setPage nextPage s)
  else (s, None).

(** The [IntersectionObserver] callback (lines 871-881); the sentinel is
    rendered only when [activeTab !== "saved" && hasMore]. *)
Definition sentinelIntersects (s : State) : State * option Request :=
  if negb (TabType_eqb (activeTab s) saved) && hasMore s then
    if hasMore s && negb (isLoading s) && negb (isFetchingMore s)
       && negb (TabType_eqb (activeTab s) saved)
    then loadMore s else (s, None)
  else (s, None).

Definition handleRefresh (now : Z) (s : State) : State * option Request :=
  let '(s1, rq) :=
    fetchRepos_begin (activeTab s) (activeRange s) 1
      (setAiFilteredIds None (setRepos [] (setHasMore true (setPage 1 s)))) in
  (addToast "Feed refreshed" success now s1, rq).

(** *** Saved collection (lines 889-899) *)

(** The updater passed to [setSavedRepos]. *)
Definition toggleSave_update (repo : GithubRepo) (now : Z)
    (prev : list SavedRepo) : list SavedRepo :=
  match List.find (fun r => id r =? id repo) prev with
  | Some _ => List.filter (fun r => negb (id r =? id repo)) prev
  | None => withSavedAt repo now :: prev
  end.

Definition toggleSave (repo : GithubRepo) (now : Z) (s : State) : State :=
  let s1 := setSavedRepos (toggleSave_update repo now (savedRepos s)) s in
  match List.find (fun r => id r =? id repo) (savedRepos s) with
  | Some _ => addToast (String.append "Removed " (name repo)) info now s1
  | None =>
      addToast (String.append "Saved " (String.append (name repo) "!"))
        success now s1
  end.

(** *** Smart filter (lines 911-969) *)

Definition runSmartFilter_begin (query : string) (s : State) : State * bool :=
  if negb (truthy query) || (Z.of_nat (String.length (trim query)) <? 3)
  then (s, false)
  else (setIsAiFiltering true s, true).

Definition runSmartFilter_resume (o : AiOutcome) (now : Z) (s : State)
  : State :=
  let s1 :=
    match o with
    | AiIds matchedIds =>
        let s0 := setAiFilteredIds (Some matchedIds) s in
        if Z.of_nat (length matchedIds) =? 0
        then addToast "No intelligent matches found" info now s0
        else addToast
               (String.append "AI matched "
                  (String.append (pretty (length matchedIds)) " projects"))
               success now s0
    | AiFailure => addToast "AI filtering failed" error now s
    end in
  setIsAiFiltering false s1.

Definition handleSearchSubmit (s : State) : State * bool :=
  if isSmartFilterMode s then runSmartFilter_begin (searchQuery s) s
  else (s, false).

(** The clear button of the search box (lines 1128-1131) and "Clear all
    filters" (lines 1280-1283). *)
Definition clearFilters (s : State) : State :=
  setAiFilteredIds None (setSearchQuery "" s).

(** The smart-filter toggle (lines 1142-1145). *)
Definition toggleSmartFilterMode (s : State) : State :=
  let s1 := setIsSmartFilterMode (negb (isSmartFilterMode s)) s in
  if isSmartFilterMode s then setAiFilteredIds None s1 else s1.

(** *** View composition (lines 971-1003) *)

Definition keywordMatch (searchQuery : string) (r : GithubRepo) : bool :=
  includes (toLowerCase (name r)) (toLowerCase searchQuery)
  || includes (toLowerCase (login (owner r))) (toLowerCase searchQuery)
  || match description r with
     | Some d => includes (toLowerCase d) (toLowerCase searchQuery)
     | None => false
     end.

(** [aiFilteredIds.includes(r.id)] *)
Definition idIncluded (l : list Z) (r : GithubRepo) : bool :=
  existsb (Z.eqb (id r)) l.

Definition source (activeTab : TabType) (repos : list GithubRepo)
    (savedRepos : list SavedRepo) : list GithubRepo :=
  match activeTab with saved => savedRepos | _ => repos end.

(** [result] after "Apply AI filter if active". *)
Definition aiStage (aiFilteredIds : option (list Z))
    (src : list GithubRepo) : list GithubRepo :=
  match aiFilteredIds with
  | Some l => List.filter (idIncluded l) src
  | None => src
  end.

Definition filteredRepos (activeTab : TabType) (repos : list GithubRepo)
    (savedRepos : list SavedRepo) (searchQuery : string)
    (aiFilteredIds : option (list Z))
    (isSmartFilterMode isAiFiltering : bool) : list GithubRepo :=
  let result := aiStage aiFilteredIds (source activeTab repos savedRepos) in
  if negb (truthy searchQuery) then result
  else if isSmartFilterMode && negb (is_Some_b aiFilteredIds)
          && negb isAiFiltering then result
  else if isSmartFilterMode && is_Some_b aiFilteredIds then result
  else List.filter (keywordMatch searchQuery) result.

Definition visible (s : State) : list GithubRepo :=
  filteredRepos (activeTab s) (repos s) (savedRepos s) (searchQuery s)
    (aiFilteredIds s) (isSmartFilterMode s) (isAiFiltering s).

(** *** The application as a transition system

    The requests issued by [fetchRepos] and not yet settled are kept in
    [inflight], the pending calls of [runSmartFilter] are counted in
    [aiInflight]; an event is a user action, the sentinel coming into view,
    or a pending request settling. *)
Record World := mkWorld {
  app : State;
  inflight : list Request;
  aiInflight : nat
}.

Inductive Event :=
  | ClickTab (t : TabType)
  | ClickRange (r : TimeRange)
  | Refresh (now : Z)
  | SentinelIntersects
  | Settle (i : nat) (o : FetchOutcome)
  | ToggleSave (repo : GithubRepo) (now : Z)
  | ChangeQuery (q : string)
  | ClearFilters
  | ToggleSmartFilterMode
  | SubmitSearch
  | AiSettle (o : AiOutcome) (now : Z)
  | DismissToast (tid : Z).

Definition issue (p : State * option Request) (w : World) : World :=
  mkWorld (fst p)
    (inflight w ++ match snd p with Some rq => [rq] | None => [] end)
    (aiInflight w).

Definition update (f : State -> State) (w : World) : World :=
  mkWorld (f (app w)) (inflight w) (aiInflight w).

Definition step (e : Event) (w : World) : World :=
  match e with
  | ClickTab t => issue (clickTab t (app w)) w
  | ClickRange r =>
      (* the range selector is rendered on the feed tabs only *)
      if TabType_eqb (activeTab (app w)) saved then w
      else issue (clickRange r (app w)) w
  | Refresh now => issue (handleRefresh now (app w)) w
  | SentinelIntersects => issue (sentinelIntersects (app w)) w
  | Settle i o =>
      match inflight w !! i with
      | Some rq =>
          mkWorld (fetchRepos_resume rq o (app w)) (delete i (inflight w))
            (aiInflight w)
      | None => w
      end
  | ToggleSave repo now => update (toggleSave repo now) w
  | ChangeQuery q => update (setSearchQuery q) w
  | ClearFilters => update clearFilters w
  | ToggleSmartFilterMode => update toggleSmartFilterMode w
  | SubmitSearch =>
      let '(s, issued) := handleSearchSubmit (app w) in
      mkWorld s (inflight w) (if issued then S (aiInflight w) else aiInflight w)
  | AiSettle o now =>
      match aiInflight w with
      | S n => mkWorld (runSmartFilter_resume o now (app w)) (inflight w) n
      | O => w
      end
  | DismissToast tid => update (removeToast tid) w
  end.

(** The first render followed by the mount run of the reset effect. *)
Definition mount : World := issue (resetEffect initial) (mkWorld initial [] 0).

Definition run (es : list Event) (w : World) : World :=
  fold_left (fun w e => step e w) es w.

(** *** Enrichment components (lines 236-270 and 302-325) *)

(** The effect of [AIInsight] on [repo.id], up to the [await]: with a
    credential configured the SDK sends one request. *)
Definition fetchInsight_begin (repo : GithubRepo) (c : InsightState)
  : InsightState * list NetworkCall :=
  (mkInsight (insight c) true, [GenerateContent (id repo)]).

Definition fetchInsight_resume (o : InsightOutcome) (c : InsightState)
  : InsightState :=
  match o with
  | InsightText text =>
      mkInsight
        (Some (if truthy text then text
               else "This repository seems like a solid addition to a modern dev stack."))
        false
  | InsightFailure =>
      mkInsight
        (Some "A trending utility that simplifies complex developer workflows.")
        false
  end.

(** The effect of [RepoLanguages] on [owner, name], up to the [await]. *)
Definition fetchLanguages_begin (ownerLogin repoName : string)
    (c : LanguagesState) : LanguagesState * list NetworkCall :=
  (c, [GetLanguages ownerLogin repoName]).

Definition fetchLanguages_resume (o : LanguagesOutcome) (c : LanguagesState)
  : LanguagesState :=
  match o with
  | LanguagesData data => mkLanguages data false
  | LanguagesFailure => mkLanguages (languages c) false
  end.

(** Mounting a component runs its effect once; [net] is the log of the
    requests sent so far. *)
Definition mountAIInsight (repo : GithubRepo) (net : list NetworkCall)
  : InsightState * list NetworkCall :=
  let '(c, calls) := fetchInsight_begin repo (mkInsight None false) in
  (c, net ++ calls).

Definition mountRepoLanguages (ownerLogin repoName : string)
    (net : list NetworkCall) : LanguagesState * list NetworkCall :=
  let '(c, calls) :=
    fetchLanguages_begin ownerLogin repoName (mkLanguages [] true) in
  (c, net ++ calls).

(** *** Utilities and derived values (lines 65-79, 327-343, 1032, 1230-1290) *)

(** [getRelativeTimeString]: [now] and [date] are the two [getTime()]
    values in milliseconds, [localeDate] is what [toLocaleDateString]
    returns for the date. *)
Definition getRelativeTimeString (localeDate : string) (now date : Z)
  : string :=
  let diffInSeconds := (now - date) / 1000 in
  if diffInSeconds <? 60 then "Just now"
  else
    let diffInMinutes := diffInSeconds / 60 in
    if diffInMinutes <? 60
    then String.append (pretty diffInMinutes) "m ago"
    else
      let diffInHours := diffInMinutes / 60 in
      if diffInHours <? 24
      then String.append (pretty diffInHours) "h ago"
      else
        let diffInDays := diffInHours / 24 in
        if diffInDays <? 7
        then String.append (pretty diffInDays) "d ago"
        else localeDate.

(** [entries.sort(([, a], [, b]) => b - a)]: [Array.prototype.sort] is
    stable, so the result is the one sequence that is ordered by descending
    byte count and keeps entries of equal count in their original order.
    An entry is put behind the entries with a larger count and in front of
    the others. *)
Fixpoint insertDesc (x : string * Z) (l : list (string * Z))
  : list (string * Z) :=
  match l with
  | [] => [x]
  | y :: l' => if snd x <? snd y then y :: insertDesc x l' else x :: l
  end.

Definition sortDesc (l : list (string * Z)) : list (string * Z) :=
  fold_right insertDesc [] l.

(** [Object.values(languages).reduce((a, b) => a + b, 0)] (line 327); the
    argument lists the entries in the order of [Object.entries]. *)
Definition total (languages : list (string * Z)) : Z :=
  fold_left Z.add (List.map snd languages) 0.

(** [Object.entries(languages).sort(...).slice(0, 6)] (lines 328-330). *)
Definition sortedLangs (languages : list (string * Z)) : list (string * Z) :=
  firstn 6 (sortDesc languages).

(** [!!savedRepos.find((r) => r.id === repo.id)] (lines 1032 and 1239). *)
Definition isSaved (savedRepos : list SavedRepo) (repo : GithubRepo) : bool :=
  is_Some_b (List.find (fun r => id r =? id repo) savedRepos).




End AppTsx.

(** ** The entry point: the hardened sibling of [App]

    The listing that follows the deployment notes (the third document of
    [src/Dockerfile], lines 49-728) defines the same component again and
    renders it.  Its functions carry the names of [src/App.tsx]. *)

Module IndexTsx.

(** The [useState] cells (lines 373-388); [selectedRepo] is left out. *)
Record State := mkState {
  activeTab : TabType;
  activeRange : TimeRange;
  repos : list GithubRepo;
  savedRepos : list SavedRepo;
  isLoading : bool;
  isFetchingMore : bool;
  page : Z;
  hasMore : bool;
  searchQuery : string;
  isSmartFilterMode : bool;
  isAiFiltering : bool;
  aiFilteredIds : option (list Z);
  errorMessage : option string;
  lastUpdated : option Z;
  toasts : list Toast
}.

Definition initial : State :=
  mkState trending week [] [] false false 1 true "" false false None None None [].

Definition setActiveTab (v : TabType) (s : State) : State :=
  let 'mkState _ b c d e f g h i j k l m n o := s in mkState v b c d e f g h i j k l m n o.
Definition setActiveRange (v : TimeRange) (s : State) : State :=
  let 'mkState a _ c d e f g h i j k l m n o := s in mkState a v c d e f g h i j k l m n o.
Definition setRepos (v : list GithubRepo) (s : State) : State :=
  let 'mkState a b _ d e f g h i j k l m n o := s in mkState a b v d e f g h i j k l m n o.
Definition setSavedRepos (v : list SavedRepo) (s : State) : State :=
  let 'mkState a b c _ e f g h i j k l m n o := s in mkState a b c v e f g h i j k l m n o.
Definition setIsLoading (v : bool) (s : State) : State :=
  let 'mkState a b c d _ f g h i j k l m n o := s in mkState a b c d v f g h i j k l m n o.
Definition setIsFetchingMore (v : bool) (s : State) : State :=
  let 'mkState a b c d e _ g h i j k l m n o := s in mkState a b c d e v g h i j k l m n o.
Definition setPage (v : Z) (s : State) : State :=
  let 'mkState a b c d e f _ h i j k l m n o := s in mkState a b c d e f v h i j k l m n o.
Definition setHasMore (v : bool) (s : State) : State :=
  let 'mkState a b c d e f g _ i j k l m n o := s in mkState a b c d e f g v i j k l m n o.
Definition setSearchQuery (v : string) (s : State) : State :=
  let 'mkState a b c d e f g h _ j k l m n o := s in mkState a b c d e f g h v j k l m n o.
Definition setIsSmartFilterMode (v : bool) (s : State) : State :=
  let 'mkState a b c d e f g h i _ k l m n o := s in mkState a b c d e f g h i v k l m n o.
Definition setIsAiFiltering (v : bool) (s : State) : State :=
  let 'mkState a b c d e f g h i j _ l m n o := s in mkState a b c d e f g h i j v l m n o.
Definition setAiFilteredIds (v : option (list Z)) (s : State) : State :=
  let 'mkState a b c d e f g h i j k _ m n o := s in mkState a b c d e f g h i j k v m n o.
Definition setErrorMessage (v : option string) (s : State) : State :=
  let 'mkState a b c d e f g h i j k l _ n o := s in mkState a b c d e f g h i j k l v n o.
Definition setLastUpdated (v : option Z) (s : State) : State :=
  let 'mkState a b c d e f g h i j k l m _ o := s in mkState a b c d e f g h i j k l m v o.
Definition setToasts (v : list Toast) (s : State) : State :=
  let 'mkState a b c d e f g h i j k l m n _ := s in mkState a b c d e f g h i j k l m n v.

(** *** Durable save store (lines 395-410) *)

Section Storage.
Variable JSON_parse : string -> option (list SavedRepo).

(** The mount effect: the [try] block and its [catch], which logs a
    warning.  The second component is the console output. *)
Definition loadSavedRepos (stored : option string) (s : State)
  : Completion (State * list string) :=
  match stored with
  | Some saved_text =>
      if truthy saved_text then
        match JSON_parse saved_text with
        | Some parsed => Returns (setSavedRepos parsed s, [])
        | None => Returns (s, ["Failed to read saved repos from storage."])
        end
      else Returns (s, [])
  | None => Returns (s, [])
  end.
End Storage.

Definition addToast (msg : string) (ty : ToastType) (now : Z) (s : State)
  : State :=
  setToasts (toasts s ++ [mkToast now msg ty]) s.

(** *** Feed fetcher (lines 415-462) *)

(** [prev => [...prev, ...data.items.filter(ni => !prev.find(pi => pi.id === ni.id))]] *)
Definition appendNew (prev items : list GithubRepo) : list GithubRepo :=
  prev ++
  List.filter
    (fun ni => negb (is_Some_b (List.find (fun pi => id pi =? id ni) prev)))
    items.

(** The component instance: its state cells, the ref [requestController]
    (the controller made by the latest [fetchRepos]), the controllers whose
    signal is aborted, and the requests not yet settled, each with the
    controller whose signal it was given. *)
Record World := mkWorld {
  app : State;
  requestController : option nat;
  aborted : gset nat;
  fresh : nat;
  inflight : list (nat * Request)
}.

(** [fetchRepos] up to [await fetch(..., { signal })]. *)
Definition fetchRepos_begin (t : TabType) (r : TimeRange) (p : Z) (w : World)
  : World :=
  match t with
  | saved => w
  | _ =>
      let s1 :=
        if p =? 1
        then setAiFilteredIds None (setIsLoading true (app w))
        else setIsFetchingMore true (app w) in
      let aborted1 :=
        match requestController w with
        | Some c => {[ c ]} ∪ aborted w
        | None => aborted w
        end in
      let controller := fresh w in
      mkWorld (setErrorMessage None s1) (Some controller) aborted1
        (S controller) (inflight w ++ [(controller, mkRequest t r p)])
  end.

(** The message of the [Error] thrown for a response that is not [ok]. *)
Definition statusMessage (status : Z) : string :=
  if status =? 403
  then "GitHub API rate limit hit. Please wait a bit or add an authenticated proxy."
  else String.append "GitHub API error ("
         (String.append (pretty status) ").").

(** [fetchRepos] from the point where [fetch] settles; [signalAborted] is
    [controller.signal.aborted] and [now] the clock read by [new Date()]. *)
Definition fetchRepos_resume (rq : Request) (signalAborted : bool)
    (o : FetchOutcome) (now : Z) (s : State) : State :=
  let p := req_page rq in
  let failed (msg : string) := setErrorMessage (Some msg) (setHasMore false s) in
  let s1 :=
    match o with
    | Response status body =>
        if negb (ok status) then failed (statusMessage status)
        else
          match body with
          | NotJson msg => failed msg
          | Json (Some items) =>
              let s0 :=
                if p =? 1 then setRepos items s
                else setRepos (appendNew (repos s) items) s in
              setLastUpdated (Some now)
                (setHasMore ((Z.of_nat (length items) =? 30) && (p <? 15)) s0)
          | Json None =>
              setErrorMessage (Some "Unexpected response from GitHub.")
                (setHasMore false s)
          end
    | NetworkFailure msg => failed msg
    | AbortError => s
    end in
  if signalAborted then s1
  else setIsFetchingMore false (setIsLoading false s1).

Definition withApp (f : State -> State) (w : World) : World :=
  mkWorld (f (app w)) (requestController w) (aborted w) (fresh w) (inflight w).

(** The effect on [activeTab, activeRange] (line 454). *)
Definition resetEffect (w : World) : World :=
  let w1 := withApp (fun s => setRepos [] (setHasMore true (setPage 1 s))) w in
  fetchRepos_begin (activeTab (app w1)) (activeRange (app w1)) 1 w1.

(** The effect on [activeTab] (lines 455-459). *)
Definition savedTabEffect (w : World) : World :=
  if TabType_eqb (activeTab (app w)) saved
  then withApp (setErrorMessage None) w else w.

Definition clickTab (t : TabType) (w : World) : World :=
  if TabType_eqb t (activeTab (app w)) then w
  else savedTabEffect (resetEffect (withApp (setActiveTab t) w)).

Definition clickRange (r : TimeRange) (w : World) : World :=
  if TimeRange_eqb r (activeRange (app w)) then w
  else resetEffect (withApp (setActiveRange r) w).

Definition loadMore (w : World) : World :=
  let s := app w in
  if negb (isLoading s) && negb (isFetchingMore s) && hasMore s
     && negb (TabType_eqb (activeTab s) saved)
  then
    let np := page s + 1 in
    fetchRepos_begin (activeTab s) (activeRange s) np (withApp (setPage np) w)
  else w.

Definition handleRefresh (now : Z) (w : World) : World :=
  let w1 :=
    withApp (fun s =>
      setAiFilteredIds None (setRepos [] (setHasMore true (setPage 1 s)))) w in
  withApp (addToast "Refreshed Feed" success now)
    (fetchRepos_begin (activeTab (app w)) (activeRange (app w)) 1 w1).

(** A pending request settles.  A request whose signal is aborted rejects
    with an [AbortError], whatever the network would have answered. *)
Definition settle (i : nat) (o : FetchOutcome) (now : Z) (w : World) : World :=
  match inflight w !! i with
  | Some (controller, rq) =>
      let signalAborted := bool_decide (controller ∈ aborted w) in
      let o1 := if signalAborted then AbortError else o in
      mkWorld (fetchRepos_resume rq signalAborted o1 now (app w))
        (requestController w) (aborted w) (fresh w) (delete i (inflight w))
  | None => w
  end.

Definition mount : World :=
  savedTabEffect (resetEffect (mkWorld initial None ∅ 0%nat [])).

(** The [IntersectionObserver] callback (lines 464-468); the sentinel is
    rendered only when [activeTab !== 'saved' && hasMore] (line 671). *)
Definition sentinelIntersects (w : World) : World :=
  let s := app w in
  if negb (TabType_eqb (activeTab s) saved) && hasMore s then
    if hasMore s && negb (isLoading s) && negb (isFetchingMore s)
       && negb (TabType_eqb (activeTab s) saved)
    then loadMore w else w
  else w.

(** The events that reach the feed fetcher. *)
Inductive Event :=
  | ClickTab (t : TabType)
  | ClickRange (r : TimeRange)
  | Refresh (now : Z)
  | SentinelIntersects
  | Settle (i : nat) (o : FetchOutcome) (now : Z).

Definition step (e : Event) (w : World) : World :=
  match e with
  | ClickTab t => clickTab t w
  | ClickRange r =>
      (* the range selector is rendered on the feed tabs only *)
      if TabType_eqb (activeTab (app w)) saved then w else clickRange r w
  | Refresh now => handleRefresh now w
  | SentinelIntersects => sentinelIntersects w
  | Settle i o now => settle i o now w
  end.

Definition run (es : list Event) (w : World) : World :=
  fold_left (fun w e => step e w) es w.

(** *** Saved collection (lines 470-476) *)

Definition toggleSave_update (repo : GithubRepo) (now : Z)
    (prev : list SavedRepo) : list SavedRepo :=
  match List.find (fun r => id r =? id repo) prev with
  | Some _ => List.filter (fun r => negb (id r =? id repo)) prev
  | None => withSavedAt repo now :: prev
  end.

(** *** View composition (lines 514-530) *)

Definition haystack (r : GithubRepo) : list string :=
  [name r; login (owner r); default "" (description r);
   default "" (language r)] ++ topics r.

Definition keywordMatch (query : string) (r : GithubRepo) : bool :=
  existsb (fun value => includes (toLowerCase value) query) (haystack r).

Definition filteredRepos (activeTab : TabType) (repos : list GithubRepo)
    (savedRepos : list SavedRepo) (searchQuery : string)
    (aiFilteredIds : option (list Z)) (isSmartFilterMode : bool)
  : list GithubRepo :=
  let res0 := match activeTab with saved => savedRepos | _ => repos end in
  let res :=
    match aiFilteredIds with
    | Some l => List.filter (fun r => existsb (Z.eqb (id r)) l) res0
    | None => res0
    end in
  if negb (truthy searchQuery) || isSmartFilterMode then res
  else
    let query := toLowerCase (trim searchQuery) in
    if negb (truthy query) then res
    else List.filter (keywordMatch query) res.

(** *** Enrichment with the module-level caches (lines 141-142, 217-290) *)

Record Caches := mkCaches {
  aiInsightCache : gmap Z string;
  languagesCache : gmap string (list (string * Z))
}.

(** The effect of [AIInsight], up to the [await]; [apiKey] is the value of
    [getApiKey()], empty when no credential is configured. *)
Definition fetchInsight_begin (apiKey : string) (repo : GithubRepo)
    (caches : Caches) (c : InsightState) : InsightState * list NetworkCall :=
  let uncached :=
    if negb (truthy apiKey)
    then (mkInsight
            (Some "Add a Gemini API key to unlock AI insights for this repository.")
            (insight_loading c), [])
    else (mkInsight (insight c) true, [GenerateContent (id repo)]) in
  match aiInsightCache caches !! id repo with
  | Some cached =>
      if truthy cached then (mkInsight (Some cached) (insight_loading c), [])
      else uncached
  | None => uncached
  end.

Definition fetchInsight_resume (repo : GithubRepo) (o : InsightOutcome)
    (caches : Caches) (c : InsightState) : Caches * InsightState :=
  match o with
  | InsightText text =>
      let msg :=
        if truthy text then text
        else "A high-impact tool for modern developers." in
      (mkCaches (<[id repo := msg]> (aiInsightCache caches))
         (languagesCache caches),
       mkInsight (Some msg) false)
  | InsightFailure =>
      (caches,
       mkInsight
         (Some "Trending repository with significant community momentum.")
         false)
  end.

Definition cacheKey (ownerLogin repoName : string) : string :=
  String.append ownerLogin (String.append "/" repoName).

(** The effect of [RepoLanguages], up to the [await]. *)
Definition loadLanguages_begin (ownerLogin repoName : string)
    (caches : Caches) (c : LanguagesState)
  : LanguagesState * list NetworkCall :=
  match languagesCache caches !! cacheKey ownerLogin repoName with
  | Some cached => (mkLanguages cached false, [])
  | None => (c, [GetLanguages ownerLogin repoName])
  end.

(** [signalAborted] is [controller.signal.aborted] of the effect's own
    controller, aborted by the effect's clean-up. *)
Definition loadLanguages_resume (ownerLogin repoName : string)
    (signalAborted : bool) (o : LanguagesOutcome) (caches : Caches)
    (c : LanguagesState) : Caches * LanguagesState :=
  let '(caches1, c1) :=
    match o with
    | LanguagesData data =>
        (mkCaches (aiInsightCache caches)
           (<[cacheKey ownerLogin repoName := data]> (languagesCache caches)),
         mkLanguages data (languages_loading c))
    | LanguagesFailure => (caches, c)
    end in
  (caches1,
   if signalAborted then c1 else mkLanguages (languages c1) false).

(** Mounting a component runs its effect once against the shared caches;
    [net] is the log of the requests sent so far. *)
Definition mountAIInsight (apiKey : string) (repo : GithubRepo)
    (caches : Caches) (net : list NetworkCall)
  : InsightState * list NetworkCall :=
  let '(c, calls) :=
    fetchInsight_begin apiKey repo caches (mkInsight None false) in
  (c, net ++ calls).

Definition mountRepoLanguages (ownerLogin repoName : string)
    (caches : Caches) (net : list NetworkCall)
  : LanguagesState * list NetworkCall :=
  let '(c, calls) :=
    loadLanguages_begin ownerLogin repoName caches (mkLanguages [] true) in
  (c, net ++ calls).

End IndexTsx.

(** ** What the specification says, in its own words *)

(** View composer, step 3: text filtering is skipped when smart mode is on
    and the smart-filter result is non-null, or when smart mode is on, the
    result is null and an AI filter request is in flight. *)
Definition skipTextFilter_spec (isSmartMode : bool)
    (smartFilterResult : option (list Z)) (aiRequestInFlight : bool) : bool :=
  (isSmartMode && is_Some_b smartFilterResult)
  || (isSmartMode && negb (is_Some_b smartFilterResult) && aiRequestInFlight).

(** View composer, step 4: the query is a case-insensitive substring of the
    name, the owner login, the description, the primary language, or any
    topic. *)
Definition keywordMatch_spec (query : string) (r : GithubRepo) : Prop :=
  ci_substring_of query (name r)
  \/ ci_substring_of query (login (owner r))
  \/ (exists d, description r = Some d /\ ci_substring_of query d)
  \/ (exists l, language r = Some l /\ ci_substring_of query l)
  \/ (exists t, In t (topics r) /\ ci_substring_of query t).

(** C2 read at one input: the composed list is the current result when the
    specification's skip condition holds, and its keyword filter otherwise. *)
Definition skip_claim (activeTab : TabType) (repos : list GithubRepo)
    (savedRepos : list SavedRepo) (searchQuery : string)
    (aiFilteredIds : option (list Z))
    (isSmartFilterMode isAiFiltering : bool) : Prop :=
  let current := AppTsx.aiStage aiFilteredIds
                   (AppTsx.source activeTab repos savedRepos) in
  AppTsx.filteredRepos activeTab repos savedRepos searchQuery aiFilteredIds
    isSmartFilterMode isAiFiltering
  = if skipTextFilter_spec isSmartFilterMode aiFilteredIds isAiFiltering
    then current
    else List.filter (AppTsx.keywordMatch searchQuery) current.

(** C2 read at a state of the running application, where an AI filter
    request is in flight when [aiInflight] is positive. *)
Definition text_filter_claim (w : AppTsx.World) : Prop :=
  let s := AppTsx.app w in
  let current := AppTsx.aiStage (AppTsx.aiFilteredIds s)
                   (AppTsx.source (AppTsx.activeTab s) (AppTsx.repos s)
                      (AppTsx.savedRepos s)) in
  AppTsx.searchQuery s <> "" ->
  AppTsx.visible s
  = if skipTextFilter_spec (AppTsx.isSmartFilterMode s)
         (AppTsx.aiFilteredIds s) (0 <? AppTsx.aiInflight w)%nat
    then current
    else List.filter (AppTsx.keywordMatch (AppTsx.searchQuery s)) current.

(** The texts of a repository that the keyword filters read are ASCII. *)
Definition asciiRepo (r : GithubRepo) : bool :=
  asciiText (name r)
  && asciiText (login (owner r))
  && match description r with Some d => asciiText d | None => true end
  && match language r with Some l => asciiText l | None => true end
  && forallb asciiText (topics r).

(** Staleness suppression: a pending request is stale when the category
    or the range it was issued for is no longer the current one; the claim
    is that its completion changes no state cell. *)
Definition stale (rq : Request) (s : AppTsx.State) : Prop :=
  req_type rq <> AppTsx.activeTab s \/ req_range rq <> AppTsx.activeRange s.

Definition staleness_suppressed : Prop :=
  forall (es : list AppTsx.Event) (i : nat) (rq : Request) (o : FetchOutcome),
    let w := AppTsx.run es AppTsx.mount in
    AppTsx.inflight w !! i = Some rq ->
    stale rq (AppTsx.app w) ->
    AppTsx.app (AppTsx.step (AppTsx.Settle i o) w) = AppTsx.app w.

(** Reset invariant: every change of category resets the page, clears the
    repository sequence and clears the smart-filter result. *)
Definition category_change_resets : Prop :=
  forall (es : list AppTsx.Event) (t : TabType),
    let w := AppTsx.run es AppTsx.mount in
    t <> AppTsx.activeTab (AppTsx.app w) ->
    let s' := AppTsx.app (AppTsx.step (AppTsx.ClickTab t) w) in
    AppTsx.page s' = 1 /\ AppTsx.repos s' = []
    /\ AppTsx.aiFilteredIds s' = None.

(** Remote fetch cache: equality of enrichment keys, and the number of
    requests for [key] in the log. *)
Definition NetworkCall_eqb (a b : NetworkCall) : bool :=
  match a, b with
  | GenerateContent i, GenerateContent j => i =? j
  | GetLanguages o1 n1, GetLanguages o2 n2 =>
      String.eqb o1 o2 && String.eqb n1 n2
  | _, _ => false
  end.

Definition callsFor (key : NetworkCall) (net : list NetworkCall) : nat :=
  length (List.filter (NetworkCall_eqb key) net).

(** Dedup invariant: the precondition under which it holds.  A page that a
    settling request delivers lists no identifier twice. *)
Definition pageDistinct (e : AppTsx.Event) : Prop :=
  match e with
  | AppTsx.Settle _ (Response _ (Json (Some items))) => List.NoDup (ids items)
  | _ => True
  end.

(** Staleness suppression in the entry point: a pending request is either
    the one of the latest controller or its controller is aborted, and
    controllers are numbered in the order of their creation. *)
Definition supersededAborted (w : IndexTsx.World) : Prop :=
  forall controller rq,
    (controller, rq) ∈ IndexTsx.inflight w ->
    controller ∈ IndexTsx.aborted w
    \/ IndexTsx.requestController w = Some controller.

Definition controllersFresh (w : IndexTsx.World) : Prop :=
  (forall c, c ∈ IndexTsx.aborted w -> (c < IndexTsx.fresh w)%nat)
  /\ (forall c, IndexTsx.requestController w = Some c ->
                (c < IndexTsx.fresh w)%nat).

(** Invariants of the feed fetcher of [src/App.tsx] along a run. *)
Definition requestsWellFormed (w : AppTsx.World) : Prop :=
  1 <= AppTsx.page (AppTsx.app w)
  /\ forall rq, In rq (AppTsx.inflight w) ->
       req_type rq <> saved /\ 1 <= req_page rq.

Definition indicatorsBacked (w : AppTsx.World) : Prop :=
  ((AppTsx.isLoading (AppTsx.app w) = true
    \/ AppTsx.isFetchingMore (AppTsx.app w) = true) ->
   AppTsx.inflight w <> [])
  /\ (AppTsx.isAiFiltering (AppTsx.app w) = true ->
      (0 < AppTsx.aiInflight w)%nat).

(** What a handler that may call [fetchRepos] does to the page counter, to
    the loading flags and to the AI flag, and which request it sends. *)
Definition handlerFacts (h : AppTsx.State -> AppTsx.State * option Request)
  : Prop :=
  forall s,
    (1 <= AppTsx.page s -> 1 <= AppTsx.page (fst (h s)))
    /\ (forall rq, snd (h s) = Some rq ->
          1 <= AppTsx.page s -> req_type rq <> saved /\ 1 <= req_page rq)
    /\ (snd (h s) = None ->
        AppTsx.isLoading (fst (h s)) = AppTsx.isLoading s
        /\ AppTsx.isFetchingMore (fst (h s)) = AppTsx.isFetchingMore s)
    /\ AppTsx.isAiFiltering (fst (h s)) = AppTsx.isAiFiltering s.

(** Descending order of byte counts. *)
Definition geCount (a b : string * Z) : Prop := snd b <= snd a.

(** The controller of the latest fetch of the entry point is not aborted. *)
Definition currentLive (w : IndexTsx.World) : Prop :=
  forall c, IndexTsx.requestController w = Some c -> c ∉ IndexTsx.aborted w.

(** ** Sample data *)

Definition acme : Owner := mkOwner "acme" "https://avatars.example/acme".

Definition sampleRepo (i : Z) (nm : string) (lang : option string)
    (tps : list string) : GithubRepo :=
  mkRepo i nm (String.append "acme/" nm) None "https://example.org" 10 2 lang
    acme "2024-01-01T00:00:00Z" "2024-01-02T00:00:00Z" 10 0 tps None.

Definition repoA : GithubRepo := sampleRepo 101 "gateway" (Some "Rust") ["kubernetes"].
Definition repoB : GithubRepo := sampleRepo 205 "parser" (Some "Go") [].

(** A [JSON.parse] that agrees with the browser's on the two texts used
    below: it reads the empty array and rejects the truncated object. *)
Definition parseSample (text : string) : option (list SavedRepo) :=
  if String.eqb text "[]" then Some [] else None.

Definition okPage' (status : Z) (items : list GithubRepo) : FetchOutcome :=
  Response status (Json (Some items)).

Definition okPage (items : list GithubRepo) : FetchOutcome := okPage' 200 items.

(** A page of [n] repositories with the identifiers [first], [first + 1],
    and so on. *)
Definition samplePage (first : Z) (n : nat) : list GithubRepo :=
  List.map (fun k => sampleRepo (first + Z.of_nat k) "repo" None []) (seq 0 n).

(** * Properties *)

(** ** Strings *)

Lemma TabType_eqb_eq a b : TabType_eqb a b = true <-> a = b.
Proof. destruct a, b; simpl; split; congruence. Qed.

Lemma TimeRange_eqb_eq a b : TimeRange_eqb a b = true <-> a = b.
Proof. destruct a, b; simpl; split; congruence. Qed.

Lemma append_String c s t :
  String.append (String c s) t = String c (String.append s t).
Proof. reflexivity. Qed.

Lemma append_Empty t : String.append EmptyString t = t.
Proof. reflexivity. Qed.

Lemma prefix_true_iff q s :
  String.prefix q s = true <-> exists post, s = String.append q post.
Proof.
  revert s; induction q as [|c q IH]; intros s.
  - split; [intros _; exists s; reflexivity | intros _; destruct s; reflexivity].
  - destruct s as [|d s]; simpl.
    + split; [discriminate | intros [post H]; rewrite append_String in H; discriminate].
    + destruct (Ascii.ascii_dec c d) as [->|Hne].
      * rewrite IH. split; intros [post H]; exists post;
          rewrite append_String in *; congruence.
      * split; [discriminate |].
        intros [post H]; rewrite append_String in H; congruence.
Qed.

Lemma includes_true_iff s q : includes s q = true <-> substring_of q s.
Proof.
  unfold substring_of. induction s as [|c s IH].
  - cbn [includes]. destruct (String.prefix q "") eqn:Hp.
    + apply prefix_true_iff in Hp as [post Hp].
      split; [intros _; exists "", post; exact Hp | reflexivity].
    + split; [discriminate |].
      intros [pre [post H]]. destruct pre; [|rewrite append_String in H; discriminate].
      rewrite append_Empty in H.
      assert (String.prefix q "" = true) as Hq
        by (apply prefix_true_iff; exists post; exact H).
      congruence.
  - cbn [includes]. destruct (String.prefix q (String c s)) eqn:Hp.
    + apply prefix_true_iff in Hp as [post Hp].
      split; [intros _; exists "", post; exact Hp | reflexivity].
    + rewrite IH. split.
      * intros [pre [post H]]. exists (String c pre), post.
        rewrite append_String. congruence.
      * intros [pre [post H]]. destruct pre as [|d pre].
        -- rewrite append_Empty in H.
           assert (String.prefix q (String c s) = true) as Hq
             by (apply prefix_true_iff; exists post; exact H).
           congruence.
        -- rewrite append_String in H. exists pre, post. congruence.
Qed.

(** ** Lists *)

Lemma filter_sublist {A} (f : A -> bool) (l : list A) :
  sublist (List.filter f l) l.
Proof.
  induction l as [|x l IH]; simpl.
  - constructor.
  - destruct (f x); [apply sublist_skip | apply sublist_cons]; exact IH.
Qed.

Lemma sublist_In {A} (l k : list A) x : sublist l k -> In x l -> In x k.
Proof.
  intros Hs Hin. apply list_elem_of_In. apply list_elem_of_In in Hin.
  eapply elem_of_sublist; eauto.
Qed.

(** ** View composition *)

Lemma aiStage_sublist ids0 src : sublist (AppTsx.aiStage ids0 src) src.
Proof.
  destruct ids0 as [l|]; simpl; [apply filter_sublist | reflexivity].
Qed.

(** C10. The visible list computed by [filteredRepos] is an order-preserving
    subsequence of the selected source (the feed, or the saved collection
    on the saved tab), whatever identifiers the smart filter holds and
    whatever the query is; an identifier that is not in the source selects
    nothing, and the response of the smart filter is stored as received. *)
Theorem C10_view_is_subsequence :
  forall (activeTab : TabType) (repos : list GithubRepo)
         (savedRepos : list SavedRepo) (searchQuery : string)
         (aiFilteredIds : option (list Z)) (isSmartFilterMode isAiFiltering : bool),
    let view := AppTsx.filteredRepos activeTab repos savedRepos searchQuery
                  aiFilteredIds isSmartFilterMode isAiFiltering in
    let src := AppTsx.source activeTab repos savedRepos in
    sublist view src
    /\ (forall r, In r view -> In r src)
    /\ (forall matchedIds now s,
          AppTsx.aiFilteredIds
            (AppTsx.runSmartFilter_resume (AiIds matchedIds) now s)
          = Some matchedIds).
Proof.
  intros activeTab repos savedRepos searchQuery aiFilteredIds smart inflight
         view src.
  assert (Hsub : sublist view src).
  { subst view src. unfold AppTsx.filteredRepos.
    set (result := AppTsx.aiStage _ _).
    assert (Hr : sublist result (AppTsx.source activeTab repos savedRepos))
      by apply aiStage_sublist.
    repeat match goal with |- context [if ?b then _ else _] => destruct b end;
      try exact Hr.
    etransitivity; [apply filter_sublist | exact Hr]. }
  split; [exact Hsub | split].
  - intros r. apply sublist_In. exact Hsub.
  - intros matchedIds now s. destruct s. unfold AppTsx.runSmartFilter_resume.
    destruct (Z.of_nat (length matchedIds) =? 0); reflexivity.
Qed.

Lemma truthy_nonempty q : q <> "" -> truthy q = true.
Proof. destruct q; [congruence | reflexivity]. Qed.

(** In smart mode, with no smart-filter result and the flag [isAiFiltering]
    set, [src/App.tsx] applies the keyword filter, where the claim skips
    it. *)
Lemma skip_claim_fails_in_flight :
  ~ skip_claim trending [repoB] [] "rust" None true true.
Proof. unfold skip_claim. vm_compute. discriminate. Qed.

(** In smart mode with no smart-filter result and no request in flight the
    keyword filter is skipped, where the claim has it applied. *)
Lemma skip_claim_fails_when_idle :
  ~ skip_claim trending [repoB] [] "rust" None true false.
Proof. unfold skip_claim. vm_compute. discriminate. Qed.

Lemma filteredRepos_nonempty activeTab repos savedRepos q ids0 smart inflight :
  q <> "" ->
  AppTsx.filteredRepos activeTab repos savedRepos q ids0 smart inflight
  = if smart && (is_Some_b ids0 || negb inflight)
    then AppTsx.aiStage ids0 (AppTsx.source activeTab repos savedRepos)
    else List.filter (AppTsx.keywordMatch q)
           (AppTsx.aiStage ids0 (AppTsx.source activeTab repos savedRepos)).
Proof.
  intros Hq. unfold AppTsx.filteredRepos. rewrite (truthy_nonempty q Hq).
  simpl. destruct smart, ids0 as [l|], inflight; reflexivity.
Qed.

(** *** The keyword filter *)

Lemma AppTsx_keywordMatch_iff q r :
  AppTsx.keywordMatch q r = true <->
  ci_substring_of q (name r)
  \/ ci_substring_of q (login (owner r))
  \/ (exists d, description r = Some d /\ ci_substring_of q d).
Proof.
  unfold AppTsx.keywordMatch, ci_substring_of.
  rewrite !orb_true_iff, !includes_true_iff.
  destruct (description r) as [d|].
  - rewrite includes_true_iff. split.
    + intros [[H|H]|H]; [left | right; left | right; right; exists d]; auto.
    + intros [H|[H|[d' [Hd H]]]]; [left; left | left; right | right]; auto.
      congruence.
  - split.
    + intros [[H|H]|H]; [left | right; left | discriminate]; auto.
    + intros [H|[H|[d' [Hd H]]]]; [left; left | left; right | discriminate]; auto.
Qed.

(** In keyword mode [src/App.tsx] retains exactly the entries whose name,
    owner login or description contains the query, case-insensitively. *)
Lemma AppTsx_keyword_mode activeTab repos savedRepos q isAiFiltering r :
  q <> "" ->
  In r (AppTsx.filteredRepos activeTab repos savedRepos q None false
          isAiFiltering)
  <-> In r (AppTsx.source activeTab repos savedRepos)
      /\ (ci_substring_of q (name r)
          \/ ci_substring_of q (login (owner r))
          \/ (exists d, description r = Some d /\ ci_substring_of q d)).
Proof.
  intros Hq. rewrite filteredRepos_nonempty by exact Hq.
  simpl. rewrite filter_In, AppTsx_keywordMatch_iff. reflexivity.
Qed.

Lemma substring_of_empty q : substring_of q "" -> q = "".
Proof.
  intros [pre [post H]]. destruct pre; [|rewrite append_String in H; discriminate].
  rewrite append_Empty in H. destruct q; [reflexivity |].
  rewrite append_String in H. discriminate.
Qed.

Lemma toLowerCase_nonempty q : q <> "" -> toLowerCase q <> "".
Proof. destruct q; [congruence | discriminate]. Qed.

Lemma IndexTsx_keywordMatch_iff query r :
  query <> "" ->
  IndexTsx.keywordMatch (toLowerCase query) r = true <->
  keywordMatch_spec query r.
Proof.
  intros Hq. pose proof (toLowerCase_nonempty query Hq) as Hlq.
  unfold IndexTsx.keywordMatch, IndexTsx.haystack, keywordMatch_spec,
    ci_substring_of.
  rewrite existsb_exists. split.
  - intros [v [Hin Hv]]. apply includes_true_iff in Hv. simpl in Hin.
    destruct Hin as [<-|[<-|[<-|[<-|Hin]]]].
    + left; exact Hv.
    + right; left; exact Hv.
    + destruct (description r) as [d|]; simpl in Hv.
      * right; right; left. exists d. split; [reflexivity | exact Hv].
      * apply substring_of_empty in Hv. contradiction.
    + destruct (language r) as [l|]; simpl in Hv.
      * right; right; right; left. exists l. split; [reflexivity | exact Hv].
      * apply substring_of_empty in Hv. contradiction.
    + right; right; right; right. exists v. split; assumption.
  - intros [H|[H|[[d [Hd H]]|[[l [Hl H]]|[t [Ht H]]]]]].
    + exists (name r). split; [simpl; tauto | apply includes_true_iff; exact H].
    + exists (login (owner r)).
      split; [simpl; tauto | apply includes_true_iff; exact H].
    + exists d. rewrite Hd.
      split; [simpl; tauto | apply includes_true_iff; exact H].
    + exists l. rewrite Hl.
      split; [simpl; tauto | apply includes_true_iff; exact H].
    + exists t. split; [simpl; tauto | apply includes_true_iff; exact H].
Qed.

(** In keyword mode the entry point retains exactly the entries in which the
    trimmed query occurs, case-insensitively, in the name, the owner login,
    the description, the language or a topic. *)
Lemma IndexTsx_keyword_mode activeTab repos savedRepos q r :
  trim q <> "" ->
  In r (IndexTsx.filteredRepos activeTab repos savedRepos q None false)
  <-> In r (match activeTab with saved => savedRepos | _ => repos end)
      /\ keywordMatch_spec (trim q) r.
Proof.
  intros Ht. unfold IndexTsx.filteredRepos.
  assert (Hq : truthy q = true).
  { destruct q; [exfalso; apply Ht; reflexivity | reflexivity]. }
  rewrite Hq. simpl.
  rewrite (truthy_nonempty _ (toLowerCase_nonempty _ Ht)). simpl.
  rewrite filter_In, IndexTsx_keywordMatch_iff by exact Ht. reflexivity.
Qed.

(** C3. At a repository whose language is Rust and whose only topic is
    kubernetes, the claim retains the entry for the queries rust and
    kubernetes; the keyword filter of [src/App.tsx] looks at the name, the
    owner login and the description only and drops it, while the keyword
    filter of the entry point keeps it. *)
Theorem C3_language_and_topics_not_searched :
  keywordMatch_spec "rust" repoA
  /\ keywordMatch_spec "kubernetes" repoA
  /\ AppTsx.filteredRepos trending [repoA; repoB] [] "rust" None false false
     = []
  /\ AppTsx.filteredRepos trending [repoA; repoB] [] "kubernetes" None
       false false = []
  /\ IndexTsx.filteredRepos trending [repoA; repoB] [] "rust" None false
     = [repoA]
  /\ IndexTsx.filteredRepos trending [repoA; repoB] [] "kubernetes" None
       false = [repoA].
Proof.
  split; [|split; [|repeat split; reflexivity]].
  - right; right; right; left. exists "Rust". split; [reflexivity |].
    apply includes_true_iff. reflexivity.
  - right; right; right; right. exists "kubernetes".
    split; [simpl; tauto |]. apply includes_true_iff. reflexivity.
Qed.

(** ** The saved collection *)

Lemma find_id_None (l : list GithubRepo) k :
  List.find (fun r => id r =? k) l = None <-> ~ In k (ids l).
Proof.
  induction l as [|x l IH]; simpl.
  - split; [intros _ [] | reflexivity].
  - destruct (Z.eqb_spec (id x) k) as [He|Hne].
    + split; [discriminate | intros H; exfalso; apply H; left; exact He].
    + rewrite IH. split; [intros H [Hx|Hx]; auto | intros H Hx; apply H; right; exact Hx].
Qed.

Lemma find_id_Some (l : list GithubRepo) k r :
  List.find (fun r => id r =? k) l = Some r -> In k (ids l).
Proof.
  intros H. destruct (in_dec Z.eq_dec k (ids l)) as [Hin|Hnin]; [exact Hin |].
  apply find_id_None in Hnin. congruence.
Qed.

Lemma ids_filter_ne (l : list GithubRepo) k x :
  In x (ids (List.filter (fun r => negb (id r =? k)) l))
  <-> In x (ids l) /\ x <> k.
Proof.
  unfold ids. rewrite !in_map_iff. split.
  - intros [r [Hr Hin]]. apply filter_In in Hin as [Hin Hk].
    apply negb_true_iff, Z.eqb_neq in Hk. split; [exists r; auto | congruence].
  - intros [[r [Hr Hin]] Hk]. exists r. split; [exact Hr |].
    apply filter_In. split; [exact Hin |].
    apply negb_true_iff, Z.eqb_neq. congruence.
Qed.

Lemma filter_ne_id (l : list GithubRepo) k :
  ~ In k (ids l) -> List.filter (fun r => negb (id r =? k)) l = l.
Proof.
  induction l as [|x l IH]; simpl; intros H; [reflexivity |].
  destruct (Z.eqb_spec (id x) k) as [He|Hne]; simpl.
  - exfalso. apply H. left. exact He.
  - f_equal. apply IH. intros Hin. apply H. right. exact Hin.
Qed.

Lemma NoDup_ids_filter (f : GithubRepo -> bool) l :
  List.NoDup (ids l) -> List.NoDup (ids (List.filter f l)).
Proof.
  induction l as [|x l IH]; simpl; intros H; [constructor |].
  apply NoDup_cons_iff in H as [Hx Hl]. destruct (f x); simpl.
  - apply NoDup_cons_iff. split; [|apply IH; exact Hl].
    intros Hin. apply Hx. unfold ids in *. apply in_map_iff in Hin as [r [Hr Hin]].
    apply filter_In in Hin as [Hin _]. apply in_map_iff. exists r. auto.
  - apply IH. exact Hl.
Qed.

Lemma toggleSave_update_saved repo now prev :
  In (id repo) (ids prev) ->
  AppTsx.toggleSave_update repo now prev
  = List.filter (fun r => negb (id r =? id repo)) prev.
Proof.
  intros Hin. unfold AppTsx.toggleSave_update.
  destruct (List.find _ prev) eqn:Hf; [reflexivity |].
  apply find_id_None in Hf. contradiction.
Qed.

Lemma toggleSave_update_unsaved repo now prev :
  ~ In (id repo) (ids prev) ->
  AppTsx.toggleSave_update repo now prev = withSavedAt repo now :: prev.
Proof.
  intros Hnin. unfold AppTsx.toggleSave_update.
  apply find_id_None in Hnin. rewrite Hnin. reflexivity.
Qed.

Lemma toggleSave_update_NoDup repo now prev :
  List.NoDup (ids prev) -> List.NoDup (ids (AppTsx.toggleSave_update repo now prev)).
Proof.
  intros Hnd. destruct (in_dec Z.eq_dec (id repo) (ids prev)) as [Hin|Hnin].
  - rewrite toggleSave_update_saved by exact Hin.
    apply NoDup_ids_filter. exact Hnd.
  - rewrite toggleSave_update_unsaved by exact Hnin. simpl.
    apply NoDup_cons_iff. split; assumption.
Qed.

Lemma toggleSave_savedRepos repo now s :
  AppTsx.savedRepos (AppTsx.toggleSave repo now s)
  = AppTsx.toggleSave_update repo now (AppTsx.savedRepos s).
Proof.
  unfold AppTsx.toggleSave. destruct s; simpl.
  destruct (List.find _ _); reflexivity.
Qed.

(** C7. Toggling save on the same repository twice restores the membership
    of the saved collection: a repository that was not saved is added and
    removed again, leaving the collection as it was; a repository that was
    saved is removed and then added again at the front with [savedAt] equal
    to the clock read at the second save, whatever its earlier timestamp
    was.  A collection with at most one entry per identifier keeps that
    property through every toggle. *)
Theorem C7_toggle_twice :
  forall (repo : GithubRepo) (t1 t2 : Z) (prev : list SavedRepo),
    let once := AppTsx.toggleSave_update repo t1 prev in
    let twice := AppTsx.toggleSave_update repo t2 once in
    (forall k, In k (ids twice) <-> In k (ids prev))
    /\ (~ In (id repo) (ids prev) -> twice = prev)
    /\ (In (id repo) (ids prev) ->
        twice = withSavedAt repo t2
                  :: List.filter (fun r => negb (id r =? id repo)) prev)
    /\ (forall r, In r twice -> id r = id repo -> savedAt r = Some t2)
    /\ (List.NoDup (ids prev) -> List.NoDup (ids once) /\ List.NoDup (ids twice)).
Proof.
  intros repo t1 t2 prev once twice.
  assert (Hnot : ~ In (id repo) (ids prev) -> twice = prev).
  { intros Hnin. subst twice once.
    rewrite (toggleSave_update_unsaved repo t1 prev Hnin).
    rewrite toggleSave_update_saved by (left; reflexivity).
    simpl. rewrite Z.eqb_refl. simpl. apply filter_ne_id. exact Hnin. }
  assert (Hin : In (id repo) (ids prev) ->
                twice = withSavedAt repo t2
                  :: List.filter (fun r => negb (id r =? id repo)) prev).
  { intros Hin. subst twice once.
    rewrite (toggleSave_update_saved repo t1 prev Hin).
    apply toggleSave_update_unsaved.
    rewrite ids_filter_ne. intros [_ Hne]. congruence. }
  split; [|split; [exact Hnot | split; [exact Hin | split]]].
  - intros k. destruct (in_dec Z.eq_dec (id repo) (ids prev)) as [Hi|Hn].
    + rewrite (Hin Hi). simpl. rewrite ids_filter_ne. split.
      * intros [<-|[Hk _]]; assumption.
      * intros Hk. destruct (Z.eq_dec k (id repo)) as [->|Hne]; auto.
    + rewrite (Hnot Hn). reflexivity.
  - intros r Hr Hid. destruct (in_dec Z.eq_dec (id repo) (ids prev)) as [Hi|Hn].
    + rewrite (Hin Hi) in Hr. destruct Hr as [<-|Hr]; [reflexivity |].
      apply filter_In in Hr as [_ Hk].
      apply negb_true_iff, Z.eqb_neq in Hk. contradiction.
    + rewrite (Hnot Hn) in Hr. exfalso. apply Hn. rewrite <- Hid.
      unfold ids. apply in_map. exact Hr.
  - intros Hnd. split; subst twice once;
      repeat apply toggleSave_update_NoDup; exact Hnd.
Qed.

(** A repository saved at time 5 and toggled at times 7 and 9 is back in
    the collection with the timestamp 9. *)
Lemma C7_toggle_twice_witness :
  List.NoDup (ids [withSavedAt repoB 5])
  /\ AppTsx.toggleSave_update repoB 9
       (AppTsx.toggleSave_update repoB 7 [withSavedAt repoB 5])
     = [withSavedAt repoB 9].
Proof.
  split.
  - repeat constructor. simpl. tauto.
  - pose proof (C7_toggle_twice repoB 7 9 [withSavedAt repoB 5]) as H.
    cbv zeta in H. destruct H as (_ & _ & H & _).
    rewrite H; [reflexivity | left; reflexivity].
Defined.

(** ** The feed *)

Lemma begin_repos t r p s :
  AppTsx.repos (fst (AppTsx.fetchRepos_begin t r p s)) = AppTsx.repos s.
Proof.
  destruct s, t; simpl; try reflexivity; destruct (p =? 1); reflexivity.
Qed.

Lemma begin_savedRepos t r p s :
  AppTsx.savedRepos (fst (AppTsx.fetchRepos_begin t r p s))
  = AppTsx.savedRepos s.
Proof.
  destruct s, t; simpl; try reflexivity; destruct (p =? 1); reflexivity.
Qed.

Lemma begin_page t r p s :
  AppTsx.page (fst (AppTsx.fetchRepos_begin t r p s)) = AppTsx.page s.
Proof.
  destruct s, t; simpl; try reflexivity; destruct (p =? 1); reflexivity.
Qed.

Lemma appendNew_spec prev items :
  exists newItems,
    AppTsx.appendNew prev items = prev ++ newItems
    /\ sublist newItems items
    /\ (forall r, In r newItems <-> In r items /\ ~ In (id r) (ids prev)).
Proof.
  unfold AppTsx.appendNew. eexists. split; [reflexivity |].
  split; [apply filter_sublist |].
  intros r. rewrite filter_In, negb_true_iff, bool_decide_eq_false.
  rewrite elem_of_list_to_set, list_elem_of_In. reflexivity.
Qed.

Lemma sublist_ids l k : sublist l k -> sublist (ids l) (ids k).
Proof. unfold ids. induction 1; simpl; constructor; assumption. Qed.

Lemma sublist_NoDup_ids l k :
  sublist l k -> List.NoDup (ids k) -> List.NoDup (ids l).
Proof.
  intros Hs. apply sublist_ids in Hs. induction Hs; intros Hk.
  - constructor.
  - apply NoDup_cons_iff in Hk as [Hx Hl]. apply NoDup_cons_iff.
    split; [|apply IHHs; exact Hl].
    intros Hin. apply Hx. eapply sublist_In; eauto.
  - apply NoDup_cons_iff in Hk as [_ Hl]. apply IHHs. exact Hl.
Qed.

Lemma appendNew_NoDup prev items :
  List.NoDup (ids prev) -> List.NoDup (ids items) ->
  List.NoDup (ids (AppTsx.appendNew prev items)).
Proof.
  intros Hp Hi. destruct (appendNew_spec prev items) as [new [-> [Hsub Hnew]]].
  unfold ids. rewrite map_app. apply List.NoDup_app.
  - exact Hp.
  - eapply sublist_NoDup_ids; eauto.
  - intros a Ha Hb. apply in_map_iff in Hb as [r [<- Hr]].
    apply Hnew in Hr as [_ Hr]. contradiction.
Qed.

Lemma resume_repos_page1 rq status items s :
  req_page rq = 1 ->
  AppTsx.repos (AppTsx.fetchRepos_resume rq (okPage' status items) s) = items.
Proof.
  intros Hp. unfold AppTsx.fetchRepos_resume, okPage'. rewrite Hp.
  destruct s; reflexivity.
Qed.

Lemma resume_repos_later rq status items s :
  req_page rq <> 1 ->
  AppTsx.repos (AppTsx.fetchRepos_resume rq (okPage' status items) s)
  = AppTsx.appendNew (AppTsx.repos s) items.
Proof.
  intros Hp. unfold AppTsx.fetchRepos_resume, okPage'.
  apply Z.eqb_neq in Hp. rewrite Hp. destruct s; reflexivity.
Qed.

Lemma resume_repos_other rq o s :
  (forall status items, o <> okPage' status items) ->
  AppTsx.repos (AppTsx.fetchRepos_resume rq o s) = AppTsx.repos s.
Proof.
  intros Ho. unfold AppTsx.fetchRepos_resume.
  destruct o as [msg| |status [msg|[items|]]]; destruct s; try reflexivity.
  exfalso. eapply Ho. reflexivity.
Qed.

Lemma resume_savedRepos rq o s :
  AppTsx.savedRepos (AppTsx.fetchRepos_resume rq o s) = AppTsx.savedRepos s.
Proof.
  unfold AppTsx.fetchRepos_resume.
  destruct o as [msg| |status [msg|[items|]]]; destruct s; try reflexivity.
  simpl. destruct (req_page rq =? 1); reflexivity.
Qed.

Ltac break_branches :=
  repeat match goal with
         | |- context [if ?b then _ else _] => destruct b; simpl
         | |- context [match ?x with _ => _ end] => destruct x; simpl
         end.

Lemma loadMore_repos s :
  AppTsx.repos (fst (AppTsx.loadMore s)) = AppTsx.repos s.
Proof.
  unfold AppTsx.loadMore.
  match goal with |- context [if ?b then _ else _] => destruct b end;
    [|reflexivity].
  rewrite begin_repos. destruct s; reflexivity.
Qed.

(** What one event does to the repository sequence: nothing, a reset to
    the empty sequence, or the delivery of a page. *)
Lemma step_repos_cases e w :
  AppTsx.repos (AppTsx.app (AppTsx.step e w)) = AppTsx.repos (AppTsx.app w)
  \/ AppTsx.repos (AppTsx.app (AppTsx.step e w)) = []
  \/ exists i rq status items,
       e = AppTsx.Settle i (okPage' status items)
       /\ AppTsx.inflight w !! i = Some rq
       /\ ((req_page rq = 1
            /\ AppTsx.repos (AppTsx.app (AppTsx.step e w)) = items)
           \/ (req_page rq <> 1
               /\ AppTsx.repos (AppTsx.app (AppTsx.step e w))
                  = AppTsx.appendNew (AppTsx.repos (AppTsx.app w)) items)).
Proof.
  destruct w as [s fl n].
  destruct e as [t|r|now| |i o|repo now|q| | | |o now|tid];
    cbn [AppTsx.step AppTsx.app AppTsx.inflight AppTsx.aiInflight
         AppTsx.issue AppTsx.update fst].
  - unfold AppTsx.clickTab. destruct (TabType_eqb t (AppTsx.activeTab s)).
    + left; reflexivity.
    + right; left. unfold AppTsx.resetEffect. rewrite begin_repos.
      destruct s; reflexivity.
  - destruct (TabType_eqb (AppTsx.activeTab s) saved); [left; reflexivity |].
    cbn [AppTsx.app AppTsx.issue fst]. unfold AppTsx.clickRange.
    destruct (TimeRange_eqb r (AppTsx.activeRange s)).
    + left; reflexivity.
    + right; left. unfold AppTsx.resetEffect. rewrite begin_repos.
      destruct s; reflexivity.
  - right; left. unfold AppTsx.handleRefresh.
    match goal with
    | |- context [AppTsx.fetchRepos_begin ?t ?r ?p ?s0] =>
        pose proof (begin_repos t r p s0) as Hb;
        destruct (AppTsx.fetchRepos_begin t r p s0) as [s1 rq]
    end.
    simpl in Hb |- *. destruct s1; simpl in *. rewrite Hb.
    destruct s; reflexivity.
  - left. unfold AppTsx.sentinelIntersects.
    repeat match goal with
           | |- context [if ?b then _ else _] => destruct b
           end; try reflexivity.
    apply loadMore_repos.
  - destruct (fl !! i) as [rq|] eqn:Hi; [|left; reflexivity].
    cbn [AppTsx.app].
    destruct o as [msg| |status [msg|[items|]]];
      try (left; apply resume_repos_other; intros; discriminate).
    right; right. exists i, rq, status, items.
    split; [reflexivity | split; [exact Hi |]].
    destruct (Z.eq_dec (req_page rq) 1) as [Hp|Hp]; [left | right];
      (split; [exact Hp |]).
    + apply resume_repos_page1; exact Hp.
    + apply resume_repos_later; exact Hp.
  - left. unfold AppTsx.toggleSave. destruct s; simpl.
    destruct (List.find _ _); reflexivity.
  - left. destruct s; reflexivity.
  - left. destruct s; reflexivity.
  - left. unfold AppTsx.toggleSmartFilterMode. destruct s; simpl.
    destruct isSmartFilterMode; reflexivity.
  - left. unfold AppTsx.handleSearchSubmit, AppTsx.runSmartFilter_begin.
    destruct s; simpl. break_branches; reflexivity.
  - left. destruct n; [reflexivity |]. cbn [AppTsx.app].
    unfold AppTsx.runSmartFilter_resume. destruct s, o; simpl;
      break_branches; reflexivity.
  - left. destruct s; reflexivity.
Qed.

Lemma step_repos_NoDup e w :
  pageDistinct e ->
  List.NoDup (ids (AppTsx.repos (AppTsx.app w))) ->
  List.NoDup (ids (AppTsx.repos (AppTsx.app (AppTsx.step e w)))).
Proof.
  intros He Hw.
  destruct (step_repos_cases e w)
    as [->|[->|(i & rq & status & items & -> & _ & [[_ ->]|[_ ->]])]].
  - exact Hw.
  - constructor.
  - exact He.
  - apply appendNew_NoDup; [exact Hw | exact He].
Qed.

Lemma run_app es e w :
  AppTsx.run (es ++ [e]) w = AppTsx.step e (AppTsx.run es w).
Proof. unfold AppTsx.run. rewrite fold_left_app. reflexivity. Qed.

Lemma run_repos_NoDup es :
  Forall pageDistinct es ->
  List.NoDup (ids (AppTsx.repos (AppTsx.app (AppTsx.run es AppTsx.mount)))).
Proof.
  induction es as [|e es IH] using rev_ind; intros Hes.
  - constructor.
  - rewrite run_app. apply Forall_app in Hes as [Hes He].
    apply step_repos_NoDup; [inversion He; assumption | apply IH; exact Hes].
Qed.

(** C6, as stated, fails: a first page that lists one repository twice is
    taken over as it is. *)
Lemma C6_counterexample :
  ~ List.NoDup
      (ids (AppTsx.repos (AppTsx.app
         (AppTsx.run [AppTsx.Settle 0 (okPage [repoA; repoA])] AppTsx.mount)))).
Proof.
  vm_compute. intros H. apply NoDup_cons_iff in H as [H _].
  apply H. left. reflexivity.
Qed.

(** C6, amended. Provided that no single page lists an identifier twice,
    the repository sequence holds no duplicate identifier after any
    sequence of events (tab and range changes, refreshes, further pages,
    requests settling in any order) even when pages overlap: the first page
    replaces the sequence wholesale, and a later page appends, in order,
    exactly those of its items whose identifier is not yet present. *)
Theorem C6_feed_has_no_duplicate_ids :
  (forall es : list AppTsx.Event,
      Forall pageDistinct es ->
      List.NoDup
        (ids (AppTsx.repos (AppTsx.app (AppTsx.run es AppTsx.mount)))))
  /\ (forall rq status items s,
        req_page rq = 1 ->
        AppTsx.repos
          (AppTsx.fetchRepos_resume rq (Response status (Json (Some items))) s)
        = items)
  /\ (forall rq status items s,
        req_page rq <> 1 ->
        exists newItems,
          AppTsx.repos
            (AppTsx.fetchRepos_resume rq
               (Response status (Json (Some items))) s)
          = AppTsx.repos s ++ newItems
          /\ sublist newItems items
          /\ (forall r, In r newItems <->
                        In r items /\ ~ In (id r) (ids (AppTsx.repos s)))).
Proof.
  split; [exact run_repos_NoDup | split].
  - intros rq status items s Hp. apply (resume_repos_page1 rq status items s Hp).
  - intros rq status items s Hp.
    pose proof (resume_repos_later rq status items s Hp) as H.
    unfold okPage' in H. rewrite H. apply appendNew_spec.
Qed.

Lemma samplePage_ids first n :
  ids (samplePage first n) = List.map (fun k => first + Z.of_nat k) (seq 0 n).
Proof. unfold ids, samplePage. rewrite List.map_map. reflexivity. Qed.

Lemma samplePage_NoDup first n : List.NoDup (ids (samplePage first n)).
Proof.
  rewrite samplePage_ids. generalize 0%nat as start.
  induction n as [|n IH]; intros start; simpl; [constructor |].
  constructor.
  - intros H. apply in_map_iff in H as [k [Hk Hin]].
    apply in_seq in Hin. lia.
  - apply IH.
Qed.

(** A first page of thirty repositories, 1 to 30, leaves more to load; the
    sentinel asks for page 2, which lists 30 to 59 and so overlaps the
    first page in repository 30: the twenty-nine new ones are appended. *)
Lemma C6_feed_has_no_duplicate_ids_witness :
  Forall pageDistinct
    [AppTsx.Settle 0 (okPage (samplePage 1 30)); AppTsx.SentinelIntersects;
     AppTsx.Settle 0 (okPage (samplePage 30 30))]
  /\ List.NoDup
       (ids (AppTsx.repos (AppTsx.app
          (AppTsx.run
             [AppTsx.Settle 0 (okPage (samplePage 1 30));
              AppTsx.SentinelIntersects;
              AppTsx.Settle 0 (okPage (samplePage 30 30))] AppTsx.mount))))
  /\ AppTsx.inflight
       (AppTsx.run
          [AppTsx.Settle 0 (okPage (samplePage 1 30));
           AppTsx.SentinelIntersects] AppTsx.mount)
     = [mkRequest trending week 2]
  /\ ids (AppTsx.repos (AppTsx.app
          (AppTsx.run
             [AppTsx.Settle 0 (okPage (samplePage 1 30));
              AppTsx.SentinelIntersects;
              AppTsx.Settle 0 (okPage (samplePage 30 30))] AppTsx.mount)))
     = ids (samplePage 1 59).
Proof.
  assert (H : Forall pageDistinct
    [AppTsx.Settle 0 (okPage (samplePage 1 30)); AppTsx.SentinelIntersects;
     AppTsx.Settle 0 (okPage (samplePage 30 30))]).
  { constructor; [exact (samplePage_NoDup 1 30) |].
    constructor; [exact I |].
    constructor; [exact (samplePage_NoDup 30 30) | constructor]. }
  split; [exact H |].
  split; [exact (proj1 C6_feed_has_no_duplicate_ids _ H) |].
  split; vm_compute; reflexivity.
Defined.

(** *** Superseded requests *)

(** C1. While the page-1 request of the trending session is in flight the
    user switches to the latest tab; the request of the new session settles
    first and its page is shown; then the stale request settles and its
    page replaces the repository sequence of the new session.  A stale
    request that fails clears the loading flag and the has-more flag of the
    new session while the new request is still pending.  [src/App.tsx]
    has no cancellation; the entry point aborts the stale request, whose
    completion then changes nothing. *)
Theorem C1_stale_fetch_updates_new_session :
  let before :=
    AppTsx.run [AppTsx.ClickTab latest; AppTsx.Settle 1 (okPage [repoB])]
      AppTsx.mount in
  let after := AppTsx.step (AppTsx.Settle 0 (okPage [repoA])) before in
  let pending := AppTsx.run [AppTsx.ClickTab latest] AppTsx.mount in
  let hit := AppTsx.step (AppTsx.Settle 0 (NetworkFailure "offline")) pending in
  let hardened :=
    IndexTsx.settle 1 (okPage [repoB]) 0
      (IndexTsx.clickTab latest IndexTsx.mount) in
  (AppTsx.inflight before = [mkRequest trending week 1]
   /\ AppTsx.activeTab (AppTsx.app before) = latest
   /\ AppTsx.repos (AppTsx.app before) = [repoB]
   /\ AppTsx.activeTab (AppTsx.app after) = latest
   /\ AppTsx.repos (AppTsx.app after) = [repoA])
  /\ (AppTsx.inflight hit = [mkRequest latest week 1]
      /\ AppTsx.isLoading (AppTsx.app pending) = true
      /\ AppTsx.hasMore (AppTsx.app pending) = true
      /\ AppTsx.isLoading (AppTsx.app hit) = false
      /\ AppTsx.hasMore (AppTsx.app hit) = false)
  /\ IndexTsx.app (IndexTsx.settle 0 (okPage [repoA]) 0 hardened)
     = IndexTsx.app hardened.
Proof. vm_compute. repeat split; reflexivity. Qed.

(** Staleness suppression does not hold of [src/App.tsx]. *)
Lemma AppTsx_not_staleness_suppressed : ~ staleness_suppressed.
Proof.
  intros H.
  specialize (H [AppTsx.ClickTab latest; AppTsx.Settle 1 (okPage [repoB])]
                0%nat (mkRequest trending week 1) (okPage [repoA])).
  cbv zeta in H.
  assert (Hne : [repoA] = [repoB]); [|discriminate Hne].
  apply (f_equal AppTsx.repos) in H.
  - vm_compute in H. exact H.
  - reflexivity.
  - left. vm_compute. discriminate.
Qed.

(** In the entry point the completion of a request whose controller was
    aborted leaves every state cell as it was. *)
Lemma IndexTsx_aborted_completion_is_noop w i o now controller rq :
  IndexTsx.inflight w !! i = Some (controller, rq) ->
  controller ∈ IndexTsx.aborted w ->
  IndexTsx.app (IndexTsx.settle i o now w) = IndexTsx.app w.
Proof.
  intros Hi Ha. unfold IndexTsx.settle. rewrite Hi.
  rewrite (bool_decide_eq_true_2 _ Ha). reflexivity.
Qed.

(** In the entry point a new fetch for a feed tab aborts the controller of
    the previous one. *)
Lemma IndexTsx_begin_aborts_previous t r p w controller :
  t <> saved ->
  IndexTsx.requestController w = Some controller ->
  controller ∈ IndexTsx.aborted (IndexTsx.fetchRepos_begin t r p w).
Proof.
  intros Ht Hc. unfold IndexTsx.fetchRepos_begin.
  destruct t; try contradiction; simpl; rewrite Hc; set_solver.
Qed.

(** In the entry point a switch to the saved tab returns before the abort:
    the pending request of the feed session still delivers its page. *)
Lemma IndexTsx_saved_tab_does_not_abort :
  let w := IndexTsx.clickTab saved IndexTsx.mount in
  IndexTsx.aborted w = ∅
  /\ IndexTsx.repos (IndexTsx.app w) = []
  /\ IndexTsx.repos (IndexTsx.app (IndexTsx.settle 0 (okPage [repoA]) 0 w))
     = [repoA].
Proof. vm_compute. repeat split; reflexivity. Qed.

(** *** Failed requests *)

Lemma AppTsx_resume_ignores_status rq status1 status2 body s :
  AppTsx.fetchRepos_resume rq (Response status1 body) s
  = AppTsx.fetchRepos_resume rq (Response status2 body) s.
Proof. reflexivity. Qed.

Lemma AppTsx_resume_failure rq o s :
  (forall status items, o <> okPage' status items) ->
  AppTsx.fetchRepos_resume rq o s
  = AppTsx.setIsFetchingMore false
      (AppTsx.setIsLoading false (AppTsx.setHasMore false s)).
Proof.
  intros Ho. destruct o as [msg| |status [msg|[items|]]]; try reflexivity.
  exfalso. eapply Ho. reflexivity.
Qed.

(** An explicit refresh on a feed tab issues the page-1 request of the
    current session, whatever the earlier requests did. *)
Lemma AppTsx_refresh_reissues now s :
  AppTsx.activeTab s <> saved ->
  snd (AppTsx.handleRefresh now s)
  = Some (mkRequest (AppTsx.activeTab s) (AppTsx.activeRange s) 1).
Proof.
  intros Ht. unfold AppTsx.handleRefresh, AppTsx.fetchRepos_begin.
  destruct s as [t r]; simpl in *. destruct t; try contradiction; reflexivity.
Qed.

Lemma IndexTsx_resume_records_error rq status body now s :
  ok status = false ->
  let s' := IndexTsx.fetchRepos_resume rq false (Response status body) now s in
  IndexTsx.hasMore s' = false
  /\ IndexTsx.errorMessage s' = Some (IndexTsx.statusMessage status).
Proof.
  intros Hok. unfold IndexTsx.fetchRepos_resume. rewrite Hok. simpl.
  destruct s; split; reflexivity.
Qed.

(** C4. A rate-limited response (status 403), a server error (status 500)
    and a network failure leave [src/App.tsx] in one and the same state:
    has-more is false and both loading flags are cleared, the status is
    never read and no state cell holds an error, so nothing tells the
    rate-limited case from the generic one.  The entry point records a
    message, a distinct one for status 403. *)
Theorem C4_failure_records_no_error :
  let rq := mkRequest trending week 1 in
  let s := AppTsx.app AppTsx.mount in
  let limited := AppTsx.fetchRepos_resume rq (Response 403 (Json None)) s in
  (limited
   = AppTsx.setIsFetchingMore false
       (AppTsx.setIsLoading false (AppTsx.setHasMore false s))
   /\ AppTsx.hasMore limited = false
   /\ AppTsx.fetchRepos_resume rq (Response 500 (Json None)) s = limited
   /\ AppTsx.fetchRepos_resume rq (NetworkFailure "offline") s = limited)
  /\ (forall rq status1 status2 body s,
        AppTsx.fetchRepos_resume rq (Response status1 body) s
        = AppTsx.fetchRepos_resume rq (Response status2 body) s)
  /\ (let s := IndexTsx.app IndexTsx.mount in
      IndexTsx.errorMessage
        (IndexTsx.fetchRepos_resume rq false (Response 403 (Json None)) 0 s)
      = Some "GitHub API rate limit hit. Please wait a bit or add an authenticated proxy."
      /\ IndexTsx.errorMessage
           (IndexTsx.fetchRepos_resume rq false (Response 500 (Json None)) 0 s)
         = Some "GitHub API error (500).").
Proof.
  cbv zeta. split; [|split].
  - repeat split; reflexivity.
  - intros. reflexivity.
  - split; vm_compute; reflexivity.
Qed.

(** *** Changing the category or the range *)

Lemma AppTsx_clickTab_resets t s :
  t <> AppTsx.activeTab s ->
  let s' := fst (AppTsx.clickTab t s) in
  AppTsx.activeTab s' = t
  /\ AppTsx.page s' = 1
  /\ AppTsx.repos s' = []
  /\ AppTsx.aiFilteredIds s'
     = if TabType_eqb t saved then AppTsx.aiFilteredIds s else None.
Proof.
  intros Ht. unfold AppTsx.clickTab.
  destruct (TabType_eqb t (AppTsx.activeTab s)) eqn:E.
  - apply TabType_eqb_eq in E. contradiction.
  - destruct s, t; repeat split; reflexivity.
Qed.

Lemma AppTsx_clickRange_resets r s :
  r <> AppTsx.activeRange s ->
  AppTsx.activeTab s <> saved ->
  let s' := fst (AppTsx.clickRange r s) in
  AppTsx.activeRange s' = r
  /\ AppTsx.page s' = 1
  /\ AppTsx.repos s' = []
  /\ AppTsx.aiFilteredIds s' = None.
Proof.
  intros Hr Ht. unfold AppTsx.clickRange.
  destruct (TimeRange_eqb r (AppTsx.activeRange s)) eqn:E.
  - apply TimeRange_eqb_eq in E. contradiction.
  - destruct s as [t]; simpl in *.
    destruct t; try contradiction; repeat split; reflexivity.
Qed.

(** C8. With a smart-filter result active on the trending feed, a switch to
    the saved tab resets the page to 1 and clears the repository sequence,
    but [fetchRepos] returns for the saved tab before the line that resets
    the smart-filter result: the result stays, and the saved collection is
    shown through it, which here hides the one saved repository.  A switch
    to the latest tab clears it.  The entry point returns early in the same
    way. *)
Theorem C8_saved_tab_keeps_smart_filter :
  let es :=
    [AppTsx.Settle 0 (okPage [repoA; repoB]); AppTsx.ToggleSave repoB 5;
     AppTsx.ToggleSmartFilterMode; AppTsx.ChangeQuery "gateway tools";
     AppTsx.SubmitSearch; AppTsx.AiSettle (AiIds [101]) 6] in
  let filtered := AppTsx.run es AppTsx.mount in
  let s := AppTsx.app (AppTsx.step (AppTsx.ClickTab saved) filtered) in
  let hardened :=
    IndexTsx.withApp (IndexTsx.setAiFilteredIds (Some [101])) IndexTsx.mount in
  (AppTsx.activeTab (AppTsx.app filtered) = trending
   /\ AppTsx.aiFilteredIds (AppTsx.app filtered) = Some [101])
  /\ (AppTsx.activeTab s = saved
      /\ AppTsx.page s = 1
      /\ AppTsx.repos s = []
      /\ AppTsx.aiFilteredIds s = Some [101]
      /\ AppTsx.savedRepos s = [withSavedAt repoB 5]
      /\ AppTsx.visible s = [])
  /\ AppTsx.aiFilteredIds
       (AppTsx.app (AppTsx.step (AppTsx.ClickTab latest) filtered)) = None
  /\ IndexTsx.aiFilteredIds (IndexTsx.app (IndexTsx.clickTab saved hardened))
     = Some [101].
Proof. vm_compute. repeat split; reflexivity. Qed.

(** The reset invariant does not hold of a change to the saved tab. *)
Lemma AppTsx_category_change_keeps_filter : ~ category_change_resets.
Proof.
  intros H.
  specialize (H [AppTsx.Settle 0 (okPage [repoA; repoB]);
                 AppTsx.ToggleSmartFilterMode;
                 AppTsx.ChangeQuery "gateway tools"; AppTsx.SubmitSearch;
                 AppTsx.AiSettle (AiIds [101]) 6] saved).
  cbv zeta in H. destruct H as (_ & _ & H).
  - vm_compute. discriminate.
  - vm_compute in H. discriminate H.
Qed.

(** ** The durable save store *)

Lemma AppTsx_load_throws_on_corrupt parse text s :
  text <> "" -> parse text = None ->
  AppTsx.loadSavedRepos parse (Some text) s = Throws "SyntaxError".
Proof.
  intros Ht Hp. unfold AppTsx.loadSavedRepos.
  rewrite (truthy_nonempty text Ht), Hp. reflexivity.
Qed.

Lemma AppTsx_load_absent parse s :
  AppTsx.loadSavedRepos parse None s = Returns s.
Proof. reflexivity. Qed.

(** The entry point never throws, and an absent or unparseable record
    leaves the collection as it was at mount, that is empty. *)
Lemma IndexTsx_load_fails_soft parse stored s :
  exists s' log,
    IndexTsx.loadSavedRepos parse stored s = Returns (s', log)
    /\ ((stored = None \/ exists text, stored = Some text /\ parse text = None)
        -> IndexTsx.savedRepos s' = IndexTsx.savedRepos s).
Proof.
  unfold IndexTsx.loadSavedRepos.
  destruct stored as [text|]; [|eexists _, _; split; [reflexivity | reflexivity]].
  destruct (truthy text); [|eexists _, _; split; reflexivity].
  destruct (parse text) as [v|] eqn:Hp.
  - eexists _, _; split; [reflexivity |].
    intros [H|[text' [Ht Hn]]]; [discriminate | congruence].
  - eexists _, _; split; reflexivity.
Qed.

(** C5. The stored record is the truncated text of a JSON object, on which
    [JSON.parse] throws.  The load effect of [src/App.tsx] calls
    [JSON.parse] outside any [try]: the exception leaves the effect, and no
    sequence is produced.  An absent record and the empty array load as the
    empty collection.  The entry point catches the exception, logs a
    warning and keeps the empty collection. *)
Theorem C5_corrupt_record_throws :
  AppTsx.loadSavedRepos parseSample (Some "{") AppTsx.initial
  = Throws "SyntaxError"
  /\ AppTsx.loadSavedRepos parseSample None AppTsx.initial
     = Returns AppTsx.initial
  /\ AppTsx.loadSavedRepos parseSample (Some "[]") AppTsx.initial
     = Returns AppTsx.initial
  /\ IndexTsx.loadSavedRepos parseSample (Some "{") IndexTsx.initial
     = Returns (IndexTsx.initial,
                ["Failed to read saved repos from storage."]).
Proof. repeat split; reflexivity. Qed.

(** ** The enrichment lookups *)

Lemma NetworkCall_eqb_refl key : NetworkCall_eqb key key = true.
Proof.
  destruct key; simpl; [apply Z.eqb_refl |].
  rewrite !String.eqb_refl. reflexivity.
Qed.

Lemma callsFor_app key a b :
  callsFor key (a ++ b) = (callsFor key a + callsFor key b)%nat.
Proof. unfold callsFor. rewrite List.filter_app, List.length_app. reflexivity. Qed.

Lemma callsFor_self key : callsFor key [key] = 1%nat.
Proof. unfold callsFor. simpl. rewrite NetworkCall_eqb_refl. reflexivity. Qed.

(** C9, as stated, fails: two components mounted for the same repository
    send two requests. *)
Lemma C9_counterexample :
  callsFor (GenerateContent (id repoA))
    (snd (AppTsx.mountAIInsight repoA (snd (AppTsx.mountAIInsight repoA []))))
  <> 1%nat.
Proof. vm_compute. discriminate. Qed.

(** C9, amended. The enrichment lookups are not single-flight: two
    components mounted for the same key before either request settles send
    two requests, one each, for the AI insight of a repository as for the
    language breakdown of an owner and name. *)
Theorem C9_simultaneous_requests_both_fetch :
  forall (repo : GithubRepo) (ownerLogin repoName : string)
         (net : list NetworkCall),
    callsFor (GenerateContent (id repo))
      (snd (AppTsx.mountAIInsight repo
              (snd (AppTsx.mountAIInsight repo net))))
    = (callsFor (GenerateContent (id repo)) net + 2)%nat
    /\ callsFor (GetLanguages ownerLogin repoName)
         (snd (AppTsx.mountRepoLanguages ownerLogin repoName
                 (snd (AppTsx.mountRepoLanguages ownerLogin repoName net))))
       = (callsFor (GetLanguages ownerLogin repoName) net + 2)%nat.
Proof.
  intros repo ownerLogin repoName net.
  unfold AppTsx.mountAIInsight, AppTsx.mountRepoLanguages. simpl.
  rewrite !callsFor_app, !callsFor_self. split; lia.
Qed.

(** The caches of the entry point do not join requests in flight either:
    a key is written when its request settles, and two components mounted
    before that both find the cache empty. *)
Lemma IndexTsx_not_single_flight apiKey repo caches net :
  apiKey <> "" ->
  IndexTsx.aiInsightCache caches !! id repo = None ->
  callsFor (GenerateContent (id repo))
    (snd (IndexTsx.mountAIInsight apiKey repo caches
            (snd (IndexTsx.mountAIInsight apiKey repo caches net))))
  = (callsFor (GenerateContent (id repo)) net + 2)%nat.
Proof.
  intros Hk Hc. unfold IndexTsx.mountAIInsight, IndexTsx.fetchInsight_begin.
  rewrite Hc, (truthy_nonempty apiKey Hk). simpl.
  rewrite !callsFor_app, !callsFor_self. lia.
Qed.

(** Once a request for a key has settled with a value, the entry point
    serves a later mount from the cache and sends nothing. *)
Lemma IndexTsx_insight_memoized apiKey repo text caches c net :
  let caches' := fst (IndexTsx.fetchInsight_resume repo (InsightText text)
                        caches c) in
  snd (IndexTsx.mountAIInsight apiKey repo caches' net) = net.
Proof.
  unfold IndexTsx.mountAIInsight, IndexTsx.fetchInsight_begin,
    IndexTsx.fetchInsight_resume. simpl.
  rewrite lookup_insert_eq.
  destruct text; simpl; rewrite app_nil_r; reflexivity.
Qed.

Lemma IndexTsx_languages_memoized ownerLogin repoName aborted0 data caches c net :
  let caches' :=
    fst (IndexTsx.loadLanguages_resume ownerLogin repoName aborted0
           (LanguagesData data) caches c) in
  snd (IndexTsx.mountRepoLanguages ownerLogin repoName caches' net) = net.
Proof.
  unfold IndexTsx.mountRepoLanguages, IndexTsx.loadLanguages_begin,
    IndexTsx.loadLanguages_resume. simpl.
  rewrite lookup_insert_eq. simpl. rewrite app_nil_r. reflexivity.
Qed.

(** A failed request stores nothing, so a later mount fetches again. *)
Lemma IndexTsx_failure_not_cached repo caches c :
  fst (IndexTsx.fetchInsight_resume repo InsightFailure caches c) = caches.
Proof. reflexivity. Qed.

(** *** The saved collection along a run *)

Lemma step_savedRepos_cases e w :
  AppTsx.savedRepos (AppTsx.app (AppTsx.step e w))
  = AppTsx.savedRepos (AppTsx.app w)
  \/ exists repo now,
       e = AppTsx.ToggleSave repo now
       /\ AppTsx.savedRepos (AppTsx.app (AppTsx.step e w))
          = AppTsx.toggleSave_update repo now
              (AppTsx.savedRepos (AppTsx.app w)).
Proof.
  destruct w as [s fl n].
  destruct e as [t|r|now| |i o|repo now|q| | | |o now|tid];
    cbn [AppTsx.step AppTsx.app AppTsx.inflight AppTsx.aiInflight
         AppTsx.issue AppTsx.update fst].
  - left. unfold AppTsx.clickTab. destruct (TabType_eqb t (AppTsx.activeTab s)).
    + reflexivity.
    + unfold AppTsx.resetEffect. rewrite begin_savedRepos.
      destruct s; reflexivity.
  - left. destruct (TabType_eqb (AppTsx.activeTab s) saved); [reflexivity |].
    cbn [AppTsx.app AppTsx.issue fst]. unfold AppTsx.clickRange.
    destruct (TimeRange_eqb r (AppTsx.activeRange s)).
    + reflexivity.
    + unfold AppTsx.resetEffect. rewrite begin_savedRepos.
      destruct s; reflexivity.
  - left. unfold AppTsx.handleRefresh.
    match goal with
    | |- context [AppTsx.fetchRepos_begin ?t ?r ?p ?s0] =>
        pose proof (begin_savedRepos t r p s0) as Hb;
        destruct (AppTsx.fetchRepos_begin t r p s0) as [s1 rq]
    end.
    simpl in Hb |- *. destruct s1; simpl in *. rewrite Hb.
    destruct s; reflexivity.
  - left. unfold AppTsx.sentinelIntersects, AppTsx.loadMore.
    repeat match goal with
           | |- context [if ?b then _ else _] => destruct b
           end; try reflexivity.
    rewrite begin_savedRepos. destruct s; reflexivity.
  - left. destruct (fl !! i) as [rq|]; [|reflexivity].
    cbn [AppTsx.app]. apply resume_savedRepos.
  - right. exists repo, now. split; [reflexivity |].
    apply toggleSave_savedRepos.
  - left. destruct s; reflexivity.
  - left. destruct s; reflexivity.
  - left. unfold AppTsx.toggleSmartFilterMode. destruct s; simpl.
    destruct isSmartFilterMode; reflexivity.
  - left. unfold AppTsx.handleSearchSubmit, AppTsx.runSmartFilter_begin.
    destruct s; simpl. break_branches; reflexivity.
  - left. destruct n; [reflexivity |]. cbn [AppTsx.app].
    unfold AppTsx.runSmartFilter_resume. destruct s, o; simpl;
      break_branches; reflexivity.
  - left. destruct s; reflexivity.
Qed.

(** Starting from the empty collection of the first render, no sequence of
    events brings two entries with one identifier into the saved
    collection. *)
Lemma run_savedRepos_NoDup es :
  List.NoDup
    (ids (AppTsx.savedRepos (AppTsx.app (AppTsx.run es AppTsx.mount)))).
Proof.
  induction es as [|e es IH] using rev_ind.
  - constructor.
  - rewrite run_app.
    destruct (step_savedRepos_cases e (AppTsx.run es AppTsx.mount))
      as [->|(repo & now & _ & ->)]; [exact IH |].
    apply toggleSave_update_NoDup. exact IH.
Qed.

Lemma IndexTsx_toggleSave_update_same :
  IndexTsx.toggleSave_update = AppTsx.toggleSave_update.
Proof. reflexivity. Qed.

(** *** Staleness suppression in the entry point *)

Lemma IndexTsx_withApp_fields f w :
  IndexTsx.requestController (IndexTsx.withApp f w)
  = IndexTsx.requestController w
  /\ IndexTsx.aborted (IndexTsx.withApp f w) = IndexTsx.aborted w
  /\ IndexTsx.fresh (IndexTsx.withApp f w) = IndexTsx.fresh w
  /\ IndexTsx.inflight (IndexTsx.withApp f w) = IndexTsx.inflight w.
Proof. repeat split; reflexivity. Qed.

(** A feed fetch aborts every request that was pending when it began, and
    its own controller is not aborted. *)
Lemma IndexTsx_begin_supersedes t r p w :
  t <> saved ->
  supersededAborted w -> controllersFresh w ->
  let w' := IndexTsx.fetchRepos_begin t r p w in
  (forall controller rq,
      (controller, rq) ∈ IndexTsx.inflight w ->
      controller ∈ IndexTsx.aborted w')
  /\ IndexTsx.inflight w'
     = IndexTsx.inflight w ++ [(IndexTsx.fresh w, mkRequest t r p)]
  /\ IndexTsx.requestController w' = Some (IndexTsx.fresh w)
  /\ (IndexTsx.fresh w ∉ IndexTsx.aborted w')
  /\ supersededAborted w' /\ controllersFresh w'.
Proof.
  intros Ht Hs [Hfa Hfc] w'.
  assert (Hw' : w' = IndexTsx.mkWorld (IndexTsx.app w')
            (Some (IndexTsx.fresh w))
            (match IndexTsx.requestController w with
             | Some c => {[ c ]} ∪ IndexTsx.aborted w
             | None => IndexTsx.aborted w
             end)
            (S (IndexTsx.fresh w))
            (IndexTsx.inflight w ++ [(IndexTsx.fresh w, mkRequest t r p)])).
  { subst w'. unfold IndexTsx.fetchRepos_begin.
    destruct t; try contradiction; reflexivity. }
  assert (Hold : forall controller rq,
             (controller, rq) ∈ IndexTsx.inflight w ->
             controller ∈ IndexTsx.aborted w').
  { intros c rq Hin. rewrite Hw'. simpl.
    destruct (Hs c rq Hin) as [Ha|Hc].
    - destruct (IndexTsx.requestController w); set_solver.
    - rewrite Hc. set_solver. }
  assert (Hnew : IndexTsx.fresh w ∉ IndexTsx.aborted w').
  { rewrite Hw'. simpl. intros Hin.
    destruct (IndexTsx.requestController w) as [c|] eqn:Hc.
    - apply elem_of_union in Hin as [Hin|Hin].
      + apply elem_of_singleton in Hin. specialize (Hfc c eq_refl). lia.
      + specialize (Hfa _ Hin). lia.
    - specialize (Hfa _ Hin). lia. }
  split; [exact Hold | split; [rewrite Hw'; reflexivity |]].
  split; [rewrite Hw'; reflexivity | split; [exact Hnew |]].
  split.
  - intros c rq Hin. rewrite Hw' in Hin. simpl in Hin.
    apply elem_of_app in Hin as [Hin|Hin].
    + left. eapply Hold; eauto.
    + apply list_elem_of_singleton in Hin. inversion Hin; subst.
      right. rewrite Hw'. reflexivity.
  - split.
    + intros c Hin. rewrite Hw' in Hin |- *. simpl in *.
      destruct (IndexTsx.requestController w) as [c0|] eqn:Hc.
      * apply elem_of_union in Hin as [Hin|Hin].
        -- apply elem_of_singleton in Hin. subst. specialize (Hfc c0 eq_refl). lia.
        -- specialize (Hfa _ Hin). lia.
      * specialize (Hfa _ Hin). lia.
    + intros c Hc. rewrite Hw' in Hc |- *. simpl in *.
      inversion Hc; subst. lia.
Qed.

Lemma IndexTsx_begin_invariant t r p w :
  supersededAborted w -> controllersFresh w ->
  supersededAborted (IndexTsx.fetchRepos_begin t r p w)
  /\ controllersFresh (IndexTsx.fetchRepos_begin t r p w).
Proof.
  intros Hs Hf. destruct (TabType_eqb t saved) eqn:E.
  - apply TabType_eqb_eq in E. subst t. split; assumption.
  - assert (Ht : t <> saved).
    { intros ->. discriminate. }
    destruct (IndexTsx_begin_supersedes t r p w Ht Hs Hf)
      as (_ & _ & _ & _ & H1 & H2).
    split; assumption.
Qed.

Lemma IndexTsx_withApp_invariant f w :
  supersededAborted w -> controllersFresh w ->
  supersededAborted (IndexTsx.withApp f w)
  /\ controllersFresh (IndexTsx.withApp f w).
Proof. intros Hs Hf. split; assumption. Qed.

Lemma IndexTsx_step_invariant e w :
  supersededAborted w /\ controllersFresh w ->
  supersededAborted (IndexTsx.step e w)
  /\ controllersFresh (IndexTsx.step e w).
Proof.
  intros [Hs Hf].
  assert (Hreset : forall w0, supersededAborted w0 -> controllersFresh w0 ->
            supersededAborted (IndexTsx.resetEffect w0)
            /\ controllersFresh (IndexTsx.resetEffect w0)).
  { intros w0 H1 H2. unfold IndexTsx.resetEffect.
    apply IndexTsx_begin_invariant; apply IndexTsx_withApp_invariant;
      assumption. }
  destruct e as [t|r|now| |i o now]; cbn [IndexTsx.step].
  - unfold IndexTsx.clickTab.
    destruct (TabType_eqb t _); [split; assumption |].
    unfold IndexTsx.savedTabEffect.
    match goal with |- context [if ?b then _ else _] => destruct b end.
    + apply IndexTsx_withApp_invariant; apply Hreset;
        apply IndexTsx_withApp_invariant; assumption.
    + apply Hreset; apply IndexTsx_withApp_invariant; assumption.
  - destruct (TabType_eqb _ saved); [split; assumption |].
    unfold IndexTsx.clickRange.
    destruct (TimeRange_eqb r _); [split; assumption |].
    apply Hreset; apply IndexTsx_withApp_invariant; assumption.
  - unfold IndexTsx.handleRefresh.
    apply IndexTsx_withApp_invariant; apply IndexTsx_begin_invariant;
      apply IndexTsx_withApp_invariant; assumption.
  - unfold IndexTsx.sentinelIntersects, IndexTsx.loadMore.
    repeat match goal with
           | |- context [if ?b then _ else _] => destruct b
           end; try (split; assumption).
    apply IndexTsx_begin_invariant; apply IndexTsx_withApp_invariant;
      assumption.
  - unfold IndexTsx.settle.
    destruct (IndexTsx.inflight w !! i) as [[c rq]|] eqn:Hi;
      [|split; assumption].
    split; [|exact Hf].
    intros c' rq' Hin. simpl in Hin |- *. apply (Hs c' rq').
    eapply elem_of_sublist; [exact Hin | apply sublist_delete].
Qed.

Lemma IndexTsx_run_app es e w :
  IndexTsx.run (es ++ [e]) w = IndexTsx.step e (IndexTsx.run es w).
Proof. unfold IndexTsx.run. rewrite fold_left_app. reflexivity. Qed.

Lemma IndexTsx_run_invariant es :
  supersededAborted (IndexTsx.run es IndexTsx.mount)
  /\ controllersFresh (IndexTsx.run es IndexTsx.mount).
Proof.
  induction es as [|e es IH] using rev_ind.
  - split.
    + intros c rq Hin. vm_compute in Hin.
      apply list_elem_of_singleton in Hin. inversion Hin; subst.
      right. reflexivity.
    + split.
      * intros c Hin. vm_compute in Hin. set_solver.
      * intros c Hc. vm_compute in Hc. inversion Hc; subst. vm_compute. lia.
  - rewrite IndexTsx_run_app. apply IndexTsx_step_invariant. exact IH.
Qed.

(** X13. In the entry point, after any run, a change to a feed tab
    supersedes every request that was pending: when such a request settles,
    with whatever outcome, no state cell changes. *)
Lemma IndexTsx_stale_completion_is_noop es t i o now :
  let w := IndexTsx.run es IndexTsx.mount in
  let w' := IndexTsx.clickTab t w in
  t <> saved ->
  t <> IndexTsx.activeTab (IndexTsx.app w) ->
  (i < length (IndexTsx.inflight w))%nat ->
  IndexTsx.app (IndexTsx.settle i o now w') = IndexTsx.app w'.
Proof.
  intros w w' Ht Hne Hi.
  destruct (IndexTsx_run_invariant es) as [Hs Hf]. fold w in Hs, Hf.
  assert (Hw' : w' = IndexTsx.fetchRepos_begin t (IndexTsx.activeRange (IndexTsx.app w)) 1
            (IndexTsx.withApp
               (fun s => IndexTsx.setRepos []
                  (IndexTsx.setHasMore true (IndexTsx.setPage 1 s)))
               (IndexTsx.withApp (IndexTsx.setActiveTab t) w))).
  { subst w'. unfold IndexTsx.clickTab.
    destruct (TabType_eqb t _) eqn:E; [apply TabType_eqb_eq in E; contradiction |].
    unfold IndexTsx.savedTabEffect, IndexTsx.resetEffect.
    destruct w as [s rc ab fr fl]; destruct s; simpl.
    destruct t; try contradiction; reflexivity. }
  set (w0 := IndexTsx.withApp _ (IndexTsx.withApp _ w)) in Hw'.
  assert (Hs0 : supersededAborted w0) by exact Hs.
  assert (Hf0 : controllersFresh w0) by exact Hf.
  destruct (IndexTsx_begin_supersedes t
              (IndexTsx.activeRange (IndexTsx.app w)) 1 w0 Ht Hs0 Hf0)
    as (Hold & Hfl & _).
  rewrite <- Hw' in Hold, Hfl.
  destruct (lookup_lt_is_Some_2 (IndexTsx.inflight w) i Hi) as [[c rq] Hl].
  apply (IndexTsx_aborted_completion_is_noop w' i o now c rq).
  - rewrite Hfl. apply lookup_app_l_Some. exact Hl.
  - apply (Hold c rq). apply list_elem_of_lookup. exists i. exact Hl.
Qed.

(** *** The view of the entry point *)

(** The entry point composes its view with filters only, too. *)
Lemma IndexTsx_view_is_subsequence activeTab repos savedRepos q ids0 smart :
  sublist (IndexTsx.filteredRepos activeTab repos savedRepos q ids0 smart)
    (match activeTab with saved => savedRepos | _ => repos end).
Proof.
  unfold IndexTsx.filteredRepos.
  set (src := match activeTab with saved => savedRepos | _ => repos end).
  set (res := match ids0 with Some l => _ | None => _ end).
  assert (Hres : sublist res src).
  { subst res. destruct ids0; [apply filter_sublist | reflexivity]. }
  repeat match goal with |- context [if ?b then _ else _] => destruct b end;
    try exact Hres.
  etransitivity; [apply filter_sublist | exact Hres].
Qed.

(** * Further properties of the code *)

(** ** Relative time labels *)

(** X1. [getRelativeTimeString] sorts the elapsed time into five classes by
    fixed thresholds: under a minute (a date in the future included) the
    label is Just now; then whole minutes from 1 to 59, whole hours from 1
    to 23, whole days from 1 to 6, each rounded down; from seven days on the
    calendar date is shown. *)
Theorem getRelativeTimeString_classes :
  forall (localeDate : string) (now date : Z),
    let d := now - date in
    let label := AppTsx.getRelativeTimeString localeDate now date in
    (d < 60000 -> label = "Just now")
    /\ (60000 <= d < 3600000 ->
        1 <= d / 60000 <= 59
        /\ label = String.append (pretty (d / 60000)) "m ago")
    /\ (3600000 <= d < 86400000 ->
        1 <= d / 3600000 <= 23
        /\ label = String.append (pretty (d / 3600000)) "h ago")
    /\ (86400000 <= d < 604800000 ->
        1 <= d / 86400000 <= 6
        /\ label = String.append (pretty (d / 86400000)) "d ago")
    /\ (604800000 <= d -> label = localeDate).
Proof.
  intros localeDate now date d label. subst label.
  unfold AppTsx.getRelativeTimeString. fold d.
  assert (Hm : d / 1000 / 60 = d / 60000)
    by (rewrite Z.div_div by lia; reflexivity).
  assert (Hh : d / 1000 / 60 / 60 = d / 3600000)
    by (rewrite !Z.div_div by lia; reflexivity).
  assert (Hd : d / 1000 / 60 / 60 / 24 = d / 86400000)
    by (rewrite !Z.div_div by lia; reflexivity).
  rewrite Hd, Hh, Hm.
  assert (Hs : d / 1000 < 60 <-> d < 60000)
    by (split; intros; Z.div_mod_to_equations; lia).
  split; [|split; [|split; [|split]]]; intros H;
    repeat match goal with
           | |- context [?a <? ?b] => destruct (Z.ltb_spec a b)
           end;
    try (split; [|reflexivity]);
    try reflexivity; try (Z.div_mod_to_equations; lia).
Qed.

(** Nine and a half minutes ago reads 9m ago. *)
Lemma getRelativeTimeString_classes_witness :
  60000 <= 1000570000 - 1000000000 < 3600000
  /\ AppTsx.getRelativeTimeString "Jan 1" 1000570000 1000000000 = "9m ago".
Proof.
  split; [lia |].
  destruct (getRelativeTimeString_classes "Jan 1" 1000570000 1000000000)
    as (_ & H & _).
  destruct H as [_ H]; [lia |]. rewrite H. reflexivity.
Defined.

(** ** The language breakdown *)

Lemma insertDesc_Permutation x l : Permutation (AppTsx.insertDesc x l) (x :: l).
Proof.
  induction l as [|y l IH]; simpl; [reflexivity |].
  destruct (snd x <? snd y); [|reflexivity].
  rewrite IH. apply perm_swap.
Qed.

Lemma sortDesc_Permutation l : Permutation (AppTsx.sortDesc l) l.
Proof.
  induction l as [|x l IH]; simpl; [reflexivity |].
  rewrite insertDesc_Permutation. constructor. exact IH.
Qed.

Lemma insertDesc_sorted x l :
  StronglySorted geCount l -> StronglySorted geCount (AppTsx.insertDesc x l).
Proof.
  induction l as [|y l IH]; intros Hl; simpl.
  - repeat constructor.
  - apply StronglySorted_cons in Hl as [Hy Hl].
    destruct (Z.ltb_spec (snd x) (snd y)) as [Hlt|Hge].
    + apply StronglySorted_cons. split; [|apply IH; exact Hl].
      rewrite (insertDesc_Permutation x l). constructor; [|exact Hy].
      unfold geCount. lia.
    + apply StronglySorted_cons. split.
      * constructor; [unfold geCount; lia |].
        eapply Forall_impl; [exact Hy |]. unfold geCount. intros z Hz. lia.
      * apply StronglySorted_cons. split; assumption.
Qed.

Lemma sortDesc_sorted l : StronglySorted geCount (AppTsx.sortDesc l).
Proof.
  induction l as [|x l IH]; simpl; [constructor |].
  apply insertDesc_sorted. exact IH.
Qed.

Lemma insertDesc_stable v x l :
  StronglySorted geCount l ->
  List.filter (fun e => snd e =? v) (AppTsx.insertDesc x l)
  = List.filter (fun e => snd e =? v) (x :: l).
Proof.
  induction l as [|y l IH]; intros Hl; [reflexivity |].
  apply StronglySorted_cons in Hl as [Hy Hl]. cbn [AppTsx.insertDesc].
  destruct (Z.ltb_spec (snd x) (snd y)) as [Hlt|Hge]; [|reflexivity].
  cbn [List.filter] in *. rewrite (IH Hl).
  destruct (Z.eqb_spec (snd y) v) as [Hyv|Hyv];
    destruct (Z.eqb_spec (snd x) v) as [Hxv|Hxv]; try reflexivity.
  lia.
Qed.

Lemma sortDesc_stable v l :
  List.filter (fun e => snd e =? v) (AppTsx.sortDesc l)
  = List.filter (fun e => snd e =? v) l.
Proof.
  induction l as [|x l IH]; [reflexivity |].
  cbn [AppTsx.sortDesc fold_right].
  rewrite insertDesc_stable by apply sortDesc_sorted.
  cbn [List.filter]. fold (AppTsx.sortDesc l). rewrite IH. reflexivity.
Qed.

Lemma filter_count_head (x : string * Z) (l : list (string * Z)) :
  List.filter (fun e => snd e =? snd x) (x :: l)
  = x :: List.filter (fun e => snd e =? snd x) l.
Proof. cbn [List.filter]. rewrite Z.eqb_refl. reflexivity. Qed.

(** A list in descending order of counts is determined by the order of its
    entries within each count. *)
Lemma sorted_stable_unique (l1 l2 : list (string * Z)) :
  StronglySorted geCount l1 -> StronglySorted geCount l2 ->
  (forall v, List.filter (fun e => snd e =? v) l1
             = List.filter (fun e => snd e =? v) l2) ->
  l1 = l2.
Proof.
  revert l2. induction l1 as [|x l1 IH]; intros l2 H1 H2 Hf.
  - destruct l2 as [|y l2]; [reflexivity |].
    specialize (Hf (snd y)). rewrite filter_count_head in Hf. discriminate.
  - destruct l2 as [|y l2].
    { specialize (Hf (snd x)). rewrite filter_count_head in Hf. discriminate. }
    apply StronglySorted_cons in H1 as [Hx H1].
    apply StronglySorted_cons in H2 as [Hy H2].
    rewrite Forall_forall in Hx, Hy. unfold geCount in Hx, Hy.
    assert (Hyx : snd y <= snd x).
    { assert (In y (x :: l1)) as [<-|Hin].
      { assert (Hin : In y (List.filter (fun e => snd e =? snd y) (x :: l1))).
        { rewrite (Hf (snd y)), filter_count_head. left. reflexivity. }
        apply filter_In in Hin as [Hin _]. exact Hin. }
      - lia.
      - apply Hx. apply list_elem_of_In. exact Hin. }
    assert (Hxy : snd x <= snd y).
    { assert (In x (y :: l2)) as [<-|Hin].
      { assert (Hin : In x (List.filter (fun e => snd e =? snd x) (y :: l2))).
        { rewrite <- (Hf (snd x)), filter_count_head. left. reflexivity. }
        apply filter_In in Hin as [Hin _]. exact Hin. }
      - lia.
      - apply Hy. apply list_elem_of_In. exact Hin. }
    assert (Heq : snd y = snd x) by lia.
    pose proof (Hf (snd x)) as Hh. rewrite filter_count_head in Hh.
    cbn [List.filter] in Hh. rewrite Heq, Z.eqb_refl in Hh.
    injection Hh as Hxy' Hrest. subst y. f_equal.
    apply IH; [exact H1 | exact H2 |].
    intros v. destruct (Z.eq_dec v (snd x)) as [->|Hv]; [exact Hrest |].
    specialize (Hf v). cbn [List.filter] in Hf.
    destruct (Z.eqb_spec (snd x) v) as [E|_]; [congruence | exact Hf].
Qed.

(** X2. The language legend shows at most six entries, by descending byte
    count; every entry shown is a language of the repository and every
    language left out has a byte count no larger than each one shown.  The
    entries shown keep the order of the response among equal counts, and of
    the languages of one count they are the first ones of the response; so
    the legend is the first six of the one arrangement of the response that
    is descending and keeps the order of the response among equal counts.
    Nothing is shown exactly when the response lists no language. *)
Theorem sortedLangs_top_six :
  forall languages : list (string * Z),
    let shown := AppTsx.sortedLangs languages in
    length shown = Nat.min 6 (length languages)
    /\ StronglySorted geCount shown
    /\ (forall e, In e shown -> In e languages)
    /\ (forall e e', In e shown -> In e' languages -> ~ In e' shown ->
                     snd e' <= snd e)
    /\ (forall v, List.filter (fun e => snd e =? v) (AppTsx.sortDesc languages)
                  = List.filter (fun e => snd e =? v) languages)
    /\ (forall v, exists rest,
          List.filter (fun e => snd e =? v) languages
          = List.filter (fun e => snd e =? v) shown ++ rest)
    /\ (forall arranged,
          StronglySorted geCount arranged ->
          (forall v, List.filter (fun e => snd e =? v) arranged
                     = List.filter (fun e => snd e =? v) languages) ->
          shown = firstn 6 arranged)
    /\ (shown = [] <-> languages = []).
Proof.
  intros languages shown. subst shown. unfold AppTsx.sortedLangs.
  pose proof (sortDesc_Permutation languages) as Hp.
  pose proof (sortDesc_sorted languages) as Hs0.
  pose proof Hs0 as Hs.
  assert (Hlen : length (take 6 (AppTsx.sortDesc languages))
                 = Nat.min 6 (length languages)).
  { rewrite length_take. rewrite (Permutation_length Hp). reflexivity. }
  rewrite <- (take_drop 6 (AppTsx.sortDesc languages)) in Hs.
  split; [exact Hlen | split; [eapply StronglySorted_app_1_l; exact Hs |]].
  split; [|split; [|split; [|split; [|split]]]].
  - intros e He. eapply Permutation_in; [exact Hp |].
    apply list_elem_of_In. apply list_elem_of_In in He.
    eapply elem_of_sublist; [exact He | apply sublist_take].
  - intros e e' He He' Hn.
    apply (StronglySorted_app_1_elem_of geCount _ _ e e' Hs).
    + apply list_elem_of_In. exact He.
    + apply (Permutation_in _ (Permutation_sym Hp)) in He'.
      rewrite <- (take_drop 6 (AppTsx.sortDesc languages)) in He'.
      apply in_app_or in He' as [He'|He']; [contradiction |].
      apply list_elem_of_In. exact He'.
  - intros v. apply sortDesc_stable.
  - intros v.
    exists (List.filter (fun e => snd e =? v)
              (drop 6 (AppTsx.sortDesc languages))).
    rewrite <- List.filter_app, take_drop. symmetry. apply sortDesc_stable.
  - intros arranged Ha Hf. f_equal.
    apply sorted_stable_unique; [exact Hs0 | exact Ha |].
    intros v. rewrite sortDesc_stable, Hf. reflexivity.
  - split; intros H.
    + rewrite H in Hlen. simpl in Hlen.
      destruct languages; [reflexivity | simpl in Hlen; lia].
    + subst languages. reflexivity.
Qed.

(** ** Infinite scroll *)

(** X3. The sentinel coming into view a second time, before anything has
    settled, sends nothing: the first request has set a loading flag that
    holds the second one back.  A request sent by the sentinel is the one
    for the page after the current page of the current category and range,
    and the page counter follows it. *)
Theorem sentinel_debounced :
  forall s : AppTsx.State,
    snd (AppTsx.sentinelIntersects (fst (AppTsx.sentinelIntersects s))) = None
    /\ (forall rq,
          snd (AppTsx.sentinelIntersects s) = Some rq ->
          rq = mkRequest (AppTsx.activeTab s) (AppTsx.activeRange s)
                 (AppTsx.page s + 1)
          /\ AppTsx.page (fst (AppTsx.sentinelIntersects s))
             = AppTsx.page s + 1).
Proof.
  intros s. destruct s as [t r rp sv il ifm pg hm q sm af ai ts].
  unfold AppTsx.sentinelIntersects, AppTsx.loadMore, AppTsx.fetchRepos_begin.
  destruct t, il, ifm, hm; simpl; split; try reflexivity;
    try (intros rq Hrq; discriminate Hrq);
    destruct (pg + 1 =? 1); simpl; try reflexivity;
    intros rq Hrq; inversion Hrq; subst; split; reflexivity.
Qed.

Lemma sentinel_idle s :
  AppTsx.hasMore s = false -> AppTsx.sentinelIntersects s = (s, None).
Proof.
  intros H. unfold AppTsx.sentinelIntersects. rewrite H.
  rewrite andb_false_r. reflexivity.
Qed.

Lemma resume_hasMore rq o s :
  AppTsx.hasMore (AppTsx.fetchRepos_resume rq o s)
  = match o with
    | Response _ (Json (Some items)) =>
        (Z.of_nat (length items) =? 30) && (req_page rq <? 34)
    | _ => false
    end.
Proof.
  unfold AppTsx.fetchRepos_resume.
  destruct o as [msg| |status [msg|[items|]]]; destruct s; try reflexivity.
  simpl. destruct (req_page rq =? 1); reflexivity.
Qed.

Lemma resume_frame rq o s :
  let s' := AppTsx.fetchRepos_resume rq o s in
  AppTsx.activeTab s' = AppTsx.activeTab s
  /\ AppTsx.activeRange s' = AppTsx.activeRange s
  /\ AppTsx.page s' = AppTsx.page s
  /\ AppTsx.isLoading s' = false
  /\ AppTsx.isFetchingMore s' = false
  /\ AppTsx.searchQuery s' = AppTsx.searchQuery s
  /\ AppTsx.isSmartFilterMode s' = AppTsx.isSmartFilterMode s
  /\ AppTsx.isAiFiltering s' = AppTsx.isAiFiltering s
  /\ AppTsx.aiFilteredIds s' = AppTsx.aiFilteredIds s.
Proof.
  unfold AppTsx.fetchRepos_resume.
  destruct o as [msg| |status [msg|[items|]]]; destruct s; simpl;
    try (destruct (req_page rq =? 1)); repeat split; reflexivity.
Qed.

(** X4. Pagination ends on a failure, on a page that does not hold exactly
    30 items, and on page 34: has-more becomes false and the sentinel sends
    nothing more.  After a page of exactly 30 items below page 34, on a feed
    tab, the sentinel asks for the page after the current one. *)
Theorem pagination_ends :
  forall (rq : Request) (o : FetchOutcome) (s : AppTsx.State),
    let s' := AppTsx.fetchRepos_resume rq o s in
    ((forall status items,
         o = Response status (Json (Some items)) ->
         length items <> 30%nat \/ 34 <= req_page rq) ->
     AppTsx.hasMore s' = false
     /\ AppTsx.sentinelIntersects s' = (s', None))
    /\ (forall status items,
          o = Response status (Json (Some items)) ->
          length items = 30%nat -> req_page rq < 34 ->
          AppTsx.activeTab s <> saved ->
          AppTsx.hasMore s' = true
          /\ snd (AppTsx.sentinelIntersects s')
             = Some (mkRequest (AppTsx.activeTab s) (AppTsx.activeRange s)
                       (AppTsx.page s + 1))).
Proof.
  intros rq o s s'. split.
  - intros Ho.
    assert (Hh : AppTsx.hasMore s' = false).
    { subst s'. rewrite resume_hasMore.
      destruct o as [msg| |status [msg|[items|]]]; try reflexivity.
      destruct (Ho status items eq_refl) as [Hl|Hp].
      - apply andb_false_iff. left. apply Z.eqb_neq. lia.
      - apply andb_false_iff. right. apply Z.ltb_ge. exact Hp. }
    split; [exact Hh | apply sentinel_idle; exact Hh].
  - intros status items -> Hl Hp Ht.
    assert (Hh : AppTsx.hasMore s' = true).
    { subst s'. rewrite resume_hasMore. apply andb_true_iff. split.
      - apply Z.eqb_eq. lia.
      - apply Z.ltb_lt. exact Hp. }
    split; [exact Hh |].
    destruct (resume_frame rq (Response status (Json (Some items))) s)
      as (Ht' & Hr' & Hp' & Hil & Hif & _).
    fold s' in Ht', Hr', Hp', Hil, Hif.
    unfold AppTsx.sentinelIntersects, AppTsx.loadMore.
    rewrite Hh, Hil, Hif, Ht', Hr', Hp'.
    assert (Hs : TabType_eqb (AppTsx.activeTab s) saved = false).
    { destruct (TabType_eqb (AppTsx.activeTab s) saved) eqn:E; [|reflexivity].
      apply TabType_eqb_eq in E. contradiction. }
    rewrite Hs. simpl. unfold AppTsx.fetchRepos_begin.
    destruct (AppTsx.activeTab s); try contradiction; reflexivity.
Qed.

(** A first page of two items ends the pagination. *)
Lemma pagination_ends_witness :
  (forall status items,
      okPage [repoA; repoB] = Response status (Json (Some items)) ->
      length items <> 30%nat \/ 34 <= req_page (mkRequest trending week 1))
  /\ AppTsx.hasMore
       (AppTsx.fetchRepos_resume (mkRequest trending week 1)
          (okPage [repoA; repoB]) (AppTsx.app AppTsx.mount)) = false.
Proof.
  assert (H : forall status items,
      okPage [repoA; repoB] = Response status (Json (Some items)) ->
      length items <> 30%nat \/ 34 <= req_page (mkRequest trending week 1)).
  { intros status items E. inversion E; subst. left. simpl. lia. }
  split; [exact H |].
  exact (proj1 (proj1 (pagination_ends (mkRequest trending week 1)
                         (okPage [repoA; repoB]) (AppTsx.app AppTsx.mount)) H)).
Defined.

(** ** The saved flag and the saved collection *)

Lemma isSaved_iff l r : AppTsx.isSaved l r = true <-> In (id r) (ids l).
Proof.
  unfold AppTsx.isSaved.
  destruct (List.find (fun r0 => id r0 =? id r) l) eqn:Hf; simpl.
  - split; [intros _; eapply find_id_Some; eauto | reflexivity].
  - apply find_id_None in Hf. split; [discriminate | contradiction].
Qed.

Lemma isSaved_ext l k r :
  (In (id r) (ids l) <-> In (id r) (ids k)) ->
  AppTsx.isSaved l r = AppTsx.isSaved k r.
Proof.
  intros H. destruct (AppTsx.isSaved l r) eqn:E1, (AppTsx.isSaved k r) eqn:E2;
    try reflexivity.
  - apply isSaved_iff, H, isSaved_iff in E1. congruence.
  - apply isSaved_iff, H, isSaved_iff in E2. congruence.
Qed.

(** X5. Toggling save on a repository flips its saved flag and leaves the
    saved flag of every repository with another identifier as it was; a
    repository that becomes saved is put at the front, and removing one
    keeps the others in their order. *)
Theorem isSaved_toggle :
  forall (repo other : GithubRepo) (now : Z) (prev : list SavedRepo),
    let next := AppTsx.toggleSave_update repo now prev in
    AppTsx.isSaved next repo = negb (AppTsx.isSaved prev repo)
    /\ (id other <> id repo ->
        AppTsx.isSaved next other = AppTsx.isSaved prev other)
    /\ (AppTsx.isSaved prev repo = false ->
        next = withSavedAt repo now :: prev)
    /\ (AppTsx.isSaved prev repo = true -> sublist next prev).
Proof.
  intros repo other now prev next. subst next.
  destruct (AppTsx.isSaved prev repo) eqn:E.
  - pose proof (proj1 (isSaved_iff prev repo) E) as Hin.
    rewrite (toggleSave_update_saved repo now prev Hin).
    split; [|split; [|split]].
    + simpl. apply not_true_is_false. intros E2.
      apply isSaved_iff, ids_filter_ne in E2 as [_ Hne]. congruence.
    + intros Hne. apply isSaved_ext. rewrite ids_filter_ne. tauto.
    + discriminate.
    + intros _. apply filter_sublist.
  - assert (Hnin : ~ In (id repo) (ids prev)).
    { intros Hin. apply isSaved_iff in Hin. congruence. }
    rewrite (toggleSave_update_unsaved repo now prev Hnin).
    split; [|split; [|split]].
    + apply isSaved_iff. left. reflexivity.
    + intros Hne. apply isSaved_ext. simpl. split; [|tauto].
      intros [H|H]; [congruence | exact H].
    + reflexivity.
    + discriminate.
Qed.

(** Saving an unsaved repository puts it at the front. *)
Lemma isSaved_toggle_witness :
  AppTsx.isSaved [withSavedAt repoA 3] repoB = false
  /\ AppTsx.toggleSave_update repoB 5 [withSavedAt repoA 3]
     = [withSavedAt repoB 5; withSavedAt repoA 3].
Proof.
  split; [reflexivity |].
  destruct (isSaved_toggle repoB repoA 5 [withSavedAt repoA 3])
    as (_ & _ & H & _).
  apply H. reflexivity.
Defined.

(** X6. No event other than a save toggle changes the saved collection:
    fetching, changing the tab or the range, refreshing, searching and
    filtering leave it as it is. *)
Theorem savedRepos_changed_by_toggle_only :
  forall (e : AppTsx.Event) (w : AppTsx.World),
    (forall repo now, e <> AppTsx.ToggleSave repo now) ->
    AppTsx.savedRepos (AppTsx.app (AppTsx.step e w))
    = AppTsx.savedRepos (AppTsx.app w).
Proof.
  intros e w He.
  destruct (step_savedRepos_cases e w) as [H|(repo & now & Heq & _)];
    [exact H |].
  exfalso. exact (He repo now Heq).
Qed.

(** A refresh keeps the saved repository. *)
Lemma savedRepos_changed_by_toggle_only_witness :
  (forall repo now, AppTsx.Refresh 9 <> AppTsx.ToggleSave repo now)
  /\ AppTsx.savedRepos
       (AppTsx.app
          (AppTsx.step (AppTsx.Refresh 9)
             (AppTsx.step (AppTsx.ToggleSave repoA 3) AppTsx.mount)))
     = [withSavedAt repoA 3].
Proof.
  assert (H : forall repo now, AppTsx.Refresh 9 <> AppTsx.ToggleSave repo now)
    by (intros repo now; discriminate).
  split; [exact H |].
  rewrite (savedRepos_changed_by_toggle_only (AppTsx.Refresh 9) _ H).
  reflexivity.
Defined.

(** ** How the filters compose *)

Lemma filter_none {A} (l : list A) : List.filter (fun _ => false) l = [].
Proof. induction l; simpl; auto. Qed.

Lemma filteredRepos_empty_result activeTab repos savedRepos q smart inflight :
  AppTsx.filteredRepos activeTab repos savedRepos q (Some []) smart inflight
  = [].
Proof.
  unfold AppTsx.filteredRepos, AppTsx.aiStage, AppTsx.idIncluded.
  cbn [existsb]. rewrite filter_none.
  repeat match goal with |- context [if ?b then _ else _] => destruct b end;
    reflexivity.
Qed.

(** X7. Typing a query never adds an entry: the view for a query is a
    subsequence of the view for the empty query, other inputs being equal.
    A smart-filter result that is the empty list hides every entry,
    whatever the query and the mode; with no query and no smart-filter
    result the view is the whole source. *)
Theorem filters_only_narrow :
  forall (activeTab : TabType) (repos : list GithubRepo)
         (savedRepos : list SavedRepo) (searchQuery : string)
         (aiFilteredIds : option (list Z)) (isSmartFilterMode isAiFiltering : bool),
    sublist
      (AppTsx.filteredRepos activeTab repos savedRepos searchQuery
         aiFilteredIds isSmartFilterMode isAiFiltering)
      (AppTsx.filteredRepos activeTab repos savedRepos "" aiFilteredIds
         isSmartFilterMode isAiFiltering)
    /\ AppTsx.filteredRepos activeTab repos savedRepos searchQuery (Some [])
         isSmartFilterMode isAiFiltering = []
    /\ AppTsx.filteredRepos activeTab repos savedRepos "" None
         isSmartFilterMode isAiFiltering
       = AppTsx.source activeTab repos savedRepos.
Proof.
  intros activeTab repos savedRepos q ids0 smart inflight.
  split; [|split; [|reflexivity]].
  - unfold AppTsx.filteredRepos. cbn [truthy negb].
    repeat match goal with |- context [if ?b then _ else _] => destruct b end;
      try reflexivity.
    apply filter_sublist.
  - apply filteredRepos_empty_result.
Qed.

(** ** What the grid shows when the view is empty *)



(** ** The notification queue *)

(** X9. Dismissing a toast removes every toast that carries its identifier
    and keeps the others in their order; the identifier is the clock value
    at creation, so toasts created within one millisecond go together.
    Adding a toast and dismissing it restores the queue when no other toast
    carries that identifier. *)
Theorem removeToast_by_id :
  forall (tid : Z) (s : AppTsx.State),
    (forall t, In t (AppTsx.toasts (AppTsx.removeToast tid s))
               <-> In t (AppTsx.toasts s) /\ toast_id t <> tid)
    /\ sublist (AppTsx.toasts (AppTsx.removeToast tid s)) (AppTsx.toasts s)
    /\ (forall msg1 ty1 msg2 ty2,
          AppTsx.toasts
            (AppTsx.removeToast tid
               (AppTsx.addToast msg2 ty2 tid (AppTsx.addToast msg1 ty1 tid s)))
          = AppTsx.toasts (AppTsx.removeToast tid s))
    /\ (forall msg ty,
          (forall t, In t (AppTsx.toasts s) -> toast_id t <> tid) ->
          AppTsx.toasts (AppTsx.removeToast tid (AppTsx.addToast msg ty tid s))
          = AppTsx.toasts s).
Proof.
  intros tid s. destruct s as [t r rp sv il ifm pg hm q sm af ai ts].
  unfold AppTsx.removeToast, AppTsx.addToast. simpl.
  split; [|split; [|split]].
  - intros x. rewrite filter_In, negb_true_iff, Z.eqb_neq. reflexivity.
  - apply filter_sublist.
  - intros msg1 ty1 msg2 ty2. rewrite !List.filter_app. simpl.
    rewrite Z.eqb_refl. simpl. rewrite !app_nil_r. reflexivity.
  - intros msg ty Hts. rewrite List.filter_app. simpl.
    rewrite Z.eqb_refl. simpl. rewrite app_nil_r.
    induction ts as [|x ts IH]; simpl; [reflexivity |].
    assert (Hx : toast_id x <> tid) by (apply Hts; left; reflexivity).
    apply Z.eqb_neq in Hx. rewrite Hx. simpl. f_equal.
    apply IH. intros y Hy. apply Hts. right. exact Hy.
Qed.

(** A toast added to the empty queue and dismissed leaves it empty. *)
Lemma removeToast_by_id_witness :
  (forall t, In t (AppTsx.toasts AppTsx.initial) -> toast_id t <> 7)
  /\ AppTsx.toasts
       (AppTsx.removeToast 7 (AppTsx.addToast "Feed refreshed" success 7
                                AppTsx.initial)) = [].
Proof.
  assert (H : forall t, In t (AppTsx.toasts AppTsx.initial) -> toast_id t <> 7)
    by (intros t []).
  split; [exact H |].
  destruct (removeToast_by_id 7 AppTsx.initial) as (_ & _ & _ & Hr).
  exact (Hr "Feed refreshed" success H).
Defined.

(** ** Requests and loading indicators along a run *)

Ltac handler_cases :=
  repeat split; intros; simpl in *;
  repeat match goal with
         | H : Some _ = Some _ |- _ => inversion H; subst; clear H
         | H : None = Some _ |- _ => discriminate H
         | H : Some _ = None |- _ => discriminate H
         end;
  simpl; try reflexivity; try discriminate; try lia.

Lemma clickTab_facts t : handlerFacts (AppTsx.clickTab t).
Proof.
  intros s. destruct s as [t0 r rp sv il ifm pg hm q sm af ai ts].
  unfold AppTsx.clickTab, AppTsx.resetEffect, AppTsx.fetchRepos_begin.
  destruct t, t0; handler_cases.
Qed.

Lemma clickRange_facts r : handlerFacts (AppTsx.clickRange r).
Proof.
  intros s. destruct s as [t0 r0 rp sv il ifm pg hm q sm af ai ts].
  unfold AppTsx.clickRange, AppTsx.resetEffect, AppTsx.fetchRepos_begin.
  destruct r, r0, t0; handler_cases.
Qed.

Lemma handleRefresh_facts now : handlerFacts (AppTsx.handleRefresh now).
Proof.
  intros s. destruct s as [t0 r0 rp sv il ifm pg hm q sm af ai ts].
  unfold AppTsx.handleRefresh, AppTsx.fetchRepos_begin.
  destruct t0; handler_cases.
Qed.

Lemma sentinelIntersects_facts : handlerFacts AppTsx.sentinelIntersects.
Proof.
  intros s. destruct s as [t0 r0 rp sv il ifm pg hm q sm af ai ts].
  unfold AppTsx.sentinelIntersects, AppTsx.loadMore, AppTsx.fetchRepos_begin.
  destruct t0, il, ifm, hm; simpl; try (handler_cases; fail);
    destruct (Z.eqb_spec (pg + 1) 1); handler_cases.
Qed.

Lemma issue_requestsWellFormed h w :
  handlerFacts h -> requestsWellFormed w ->
  requestsWellFormed (AppTsx.issue (h (AppTsx.app w)) w).
Proof.
  intros Hh [Hp Hfl]. destruct (Hh (AppTsx.app w)) as (H1 & H2 & _).
  split; [apply H1; exact Hp |].
  intros rq Hin. cbn [AppTsx.issue AppTsx.inflight] in Hin.
  apply in_app_or in Hin as [Hin|Hin]; [apply Hfl; exact Hin |].
  destruct (snd (h (AppTsx.app w))) as [rq'|]; [|destruct Hin].
  destruct Hin as [<-|[]]. apply H2; [reflexivity | exact Hp].
Qed.

Lemma issue_indicatorsBacked h w :
  handlerFacts h -> indicatorsBacked w ->
  indicatorsBacked (AppTsx.issue (h (AppTsx.app w)) w).
Proof.
  intros Hh [Hf Ha]. destruct (Hh (AppTsx.app w)) as (_ & _ & H3 & H4).
  split; cbn [AppTsx.issue AppTsx.app AppTsx.inflight AppTsx.aiInflight].
  - intros Hflag. destruct (snd (h (AppTsx.app w))) as [rq|].
    + intros E. apply app_eq_nil in E as [_ E]. discriminate E.
    + rewrite app_nil_r. apply Hf. destruct (H3 eq_refl) as [E1 E2].
      rewrite <- E1, <- E2. exact Hflag.
  - rewrite H4. exact Ha.
Qed.

Lemma step_requestsWellFormed e w :
  requestsWellFormed w -> requestsWellFormed (AppTsx.step e w).
Proof.
  intros Hw.
  destruct e as [t|r|now| |i o|repo now|q| | | |o now|tid];
    cbn [AppTsx.step].
  - apply issue_requestsWellFormed; [apply clickTab_facts | exact Hw].
  - destruct (TabType_eqb _ saved); [exact Hw |].
    apply issue_requestsWellFormed; [apply clickRange_facts | exact Hw].
  - apply issue_requestsWellFormed; [apply handleRefresh_facts | exact Hw].
  - apply issue_requestsWellFormed; [apply sentinelIntersects_facts | exact Hw].
  - destruct (AppTsx.inflight w !! i) as [rq|]; [|exact Hw].
    destruct Hw as [Hp Hfl]. split; cbn [AppTsx.app AppTsx.inflight].
    + destruct (resume_frame rq o (AppTsx.app w)) as (_ & _ & E & _).
      rewrite E. exact Hp.
    + intros rq' Hin. apply Hfl. eapply sublist_In; [|exact Hin].
      apply sublist_delete.
  - destruct Hw as [Hp Hfl]. split; [|exact Hfl].
    cbn [AppTsx.update AppTsx.app]. unfold AppTsx.toggleSave.
    destruct (AppTsx.app w); simpl in *. destruct (List.find _ _); exact Hp.
  - destruct Hw as [Hp Hfl]. split; [|exact Hfl].
    cbn [AppTsx.update AppTsx.app]. destruct (AppTsx.app w); exact Hp.
  - destruct Hw as [Hp Hfl]. split; [|exact Hfl].
    cbn [AppTsx.update AppTsx.app]. destruct (AppTsx.app w); exact Hp.
  - destruct Hw as [Hp Hfl]. split; [|exact Hfl].
    cbn [AppTsx.update AppTsx.app]. unfold AppTsx.toggleSmartFilterMode.
    destruct (AppTsx.app w); simpl in *. destruct isSmartFilterMode; exact Hp.
  - destruct Hw as [Hp Hfl].
    unfold AppTsx.handleSearchSubmit, AppTsx.runSmartFilter_begin.
    destruct (AppTsx.app w); simpl in *.
    repeat match goal with |- context [if ?b then _ else _] => destruct b end;
      split; simpl; assumption.
  - destruct (AppTsx.aiInflight w); [exact Hw |].
    destruct Hw as [Hp Hfl]. split; [|exact Hfl].
    cbn [AppTsx.app]. unfold AppTsx.runSmartFilter_resume.
    destruct (AppTsx.app w), o; simpl in *;
      repeat match goal with |- context [if ?b then _ else _] => destruct b end;
      exact Hp.
  - destruct Hw as [Hp Hfl]. split; [|exact Hfl].
    cbn [AppTsx.update AppTsx.app]. destruct (AppTsx.app w); exact Hp.
Qed.

Lemma step_indicatorsBacked e w :
  indicatorsBacked w -> indicatorsBacked (AppTsx.step e w).
Proof.
  intros Hw.
  destruct e as [t|r|now| |i o|repo now|q| | | |o now|tid];
    cbn [AppTsx.step].
  - apply issue_indicatorsBacked; [apply clickTab_facts | exact Hw].
  - destruct (TabType_eqb _ saved); [exact Hw |].
    apply issue_indicatorsBacked; [apply clickRange_facts | exact Hw].
  - apply issue_indicatorsBacked; [apply handleRefresh_facts | exact Hw].
  - apply issue_indicatorsBacked; [apply sentinelIntersects_facts | exact Hw].
  - destruct (AppTsx.inflight w !! i) as [rq|]; [|exact Hw].
    destruct Hw as [Hf Ha].
    destruct (resume_frame rq o (AppTsx.app w))
      as (_ & _ & _ & E1 & E2 & _ & _ & E3 & _).
    split; cbn [AppTsx.app AppTsx.inflight AppTsx.aiInflight].
    + rewrite E1, E2. intros [H|H]; discriminate H.
    + rewrite E3. exact Ha.
  - destruct Hw as [Hf Ha]. unfold indicatorsBacked.
    cbn [AppTsx.update AppTsx.app AppTsx.inflight AppTsx.aiInflight].
    unfold AppTsx.toggleSave.
    destruct (AppTsx.app w); simpl in *.
    destruct (List.find _ _); split; assumption.
  - destruct Hw as [Hf Ha]. unfold indicatorsBacked.
    cbn [AppTsx.update AppTsx.app AppTsx.inflight AppTsx.aiInflight].
    destruct (AppTsx.app w); split; assumption.
  - destruct Hw as [Hf Ha]. unfold indicatorsBacked.
    cbn [AppTsx.update AppTsx.app AppTsx.inflight AppTsx.aiInflight].
    destruct (AppTsx.app w); split; assumption.
  - destruct Hw as [Hf Ha]. unfold indicatorsBacked.
    cbn [AppTsx.update AppTsx.app AppTsx.inflight AppTsx.aiInflight].
    unfold AppTsx.toggleSmartFilterMode.
    destruct (AppTsx.app w); simpl in *.
    destruct isSmartFilterMode; split; assumption.
  - destruct Hw as [Hf Ha]. unfold indicatorsBacked.
    unfold AppTsx.handleSearchSubmit, AppTsx.runSmartFilter_begin.
    destruct (AppTsx.app w); simpl in *.
    repeat match goal with |- context [if ?b then _ else _] => destruct b end;
      split; simpl; try assumption; intros; lia.
  - destruct (AppTsx.aiInflight w) as [|n] eqn:En; [exact Hw |].
    destruct Hw as [Hf Ha]. unfold indicatorsBacked.
    cbn [AppTsx.app AppTsx.inflight AppTsx.aiInflight].
    unfold AppTsx.runSmartFilter_resume.
    destruct (AppTsx.app w), o; simpl in *;
      repeat match goal with |- context [if ?b then _ else _] => destruct b end;
      split; simpl; try assumption; intros H; discriminate H.
  - destruct Hw as [Hf Ha]. unfold indicatorsBacked.
    cbn [AppTsx.update AppTsx.app AppTsx.inflight AppTsx.aiInflight].
    destruct (AppTsx.app w); split; assumption.
Qed.

(** X10. Whatever the user does and in whatever order requests settle, the
    page counter stays at 1 or above, and every search request in flight is
    for a feed tab, never for the saved tab, and for a page from 1 up. *)
Theorem requests_are_for_feed_pages :
  forall (es : list AppTsx.Event) (rq : Request),
    1 <= AppTsx.page (AppTsx.app (AppTsx.run es AppTsx.mount))
    /\ (In rq (AppTsx.inflight (AppTsx.run es AppTsx.mount)) ->
        req_type rq <> saved /\ 1 <= req_page rq).
Proof.
  intros es rq.
  assert (H : requestsWellFormed (AppTsx.run es AppTsx.mount)).
  { induction es as [|e es IH] using rev_ind.
    - split; [vm_compute; discriminate |].
      intros rq' [<-|[]]. split; [discriminate | vm_compute; discriminate].
    - rewrite run_app. apply step_requestsWellFormed. exact IH. }
  destruct H as [Hp Hfl]. split; [exact Hp | apply Hfl].
Qed.

(** A loading indicator is shown only while a request is pending. *)
Lemma run_indicatorsBacked es :
  indicatorsBacked (AppTsx.run es AppTsx.mount).
Proof.
  induction es as [|e es IH] using rev_ind.
  - split.
    + intros _. vm_compute. discriminate.
    + vm_compute. discriminate.
  - rewrite run_app. apply step_indicatorsBacked. exact IH.
Qed.

(** X11. No loading indicator gets stuck: along every run, when the
    loading flag or the fetching-more flag is set a search request is in
    flight, and when the AI flag is set a smart-filter request is in flight;
    each of them clears its flags when it settles, whatever the outcome. *)
Theorem indicators_are_backed :
  forall es : list AppTsx.Event,
    let w := AppTsx.run es AppTsx.mount in
    (AppTsx.isLoading (AppTsx.app w) = true
     \/ AppTsx.isFetchingMore (AppTsx.app w) = true ->
     exists rq, AppTsx.inflight w !! 0%nat = Some rq)
    /\ (AppTsx.isAiFiltering (AppTsx.app w) = true ->
        (0 < AppTsx.aiInflight w)%nat)
    /\ (forall i o,
          is_Some (AppTsx.inflight w !! i) ->
          let w' := AppTsx.step (AppTsx.Settle i o) w in
          AppTsx.isLoading (AppTsx.app w') = false
          /\ AppTsx.isFetchingMore (AppTsx.app w') = false)
    /\ (forall o now,
          (0 < AppTsx.aiInflight w)%nat ->
          AppTsx.isAiFiltering
            (AppTsx.app (AppTsx.step (AppTsx.AiSettle o now) w)) = false).
Proof.
  intros es w. destruct (run_indicatorsBacked es) as [Hf Ha]. fold w in Hf, Ha.
  split; [|split; [exact Ha | split]].
  - intros Hflag. specialize (Hf Hflag).
    destruct (AppTsx.inflight w) as [|rq fl]; [contradiction |].
    exists rq. reflexivity.
  - intros i o [rq Hi] w'. subst w'. cbn [AppTsx.step]. rewrite Hi.
    cbn [AppTsx.app].
    destruct (resume_frame rq o (AppTsx.app w)) as (_ & _ & _ & E1 & E2 & _).
    split; assumption.
  - intros o now Hn. cbn [AppTsx.step].
    destruct (AppTsx.aiInflight w); [lia |]. cbn [AppTsx.app].
    unfold AppTsx.runSmartFilter_resume.
    destruct (AppTsx.app w), o; simpl;
      repeat match goal with |- context [if ?b then _ else _] => destruct b end;
      reflexivity.
Qed.

(** ** The entry point: requests, errors, storage and caches *)

(** After the first mount, a click on the latest tab supersedes the pending
    request of the trending session. *)
Lemma IndexTsx_stale_completion_is_noop_witness :
  latest <> saved
  /\ latest <> IndexTsx.activeTab (IndexTsx.app (IndexTsx.run [] IndexTsx.mount))
  /\ (0 < length (IndexTsx.inflight (IndexTsx.run [] IndexTsx.mount)))%nat
  /\ IndexTsx.app
       (IndexTsx.settle 0 (okPage [repoA]) 0
          (IndexTsx.clickTab latest (IndexTsx.run [] IndexTsx.mount)))
     = IndexTsx.app (IndexTsx.clickTab latest (IndexTsx.run [] IndexTsx.mount)).
Proof.
  assert (H1 : latest <> saved) by discriminate.
  assert (H2 : latest <> IndexTsx.activeTab
                           (IndexTsx.app (IndexTsx.run [] IndexTsx.mount)))
    by (vm_compute; discriminate).
  assert (H3 : (0 < length (IndexTsx.inflight (IndexTsx.run [] IndexTsx.mount)))%nat)
    by (vm_compute; lia).
  split; [exact H1 | split; [exact H2 | split; [exact H3 |]]].
  exact (IndexTsx_stale_completion_is_noop [] latest 0 (okPage [repoA]) 0
           H1 H2 H3).
Defined.

Lemma IndexTsx_begin_currentLive t r p w :
  supersededAborted w -> controllersFresh w -> currentLive w ->
  currentLive (IndexTsx.fetchRepos_begin t r p w).
Proof.
  intros Hs Hf Hl. destruct (TabType_eqb t saved) eqn:E.
  - apply TabType_eqb_eq in E. subst t. exact Hl.
  - assert (Ht : t <> saved) by (intros ->; discriminate).
    destruct (IndexTsx_begin_supersedes t r p w Ht Hs Hf)
      as (_ & _ & Hrc & Hnew & _).
    intros c Hc. rewrite Hrc in Hc. inversion Hc; subst. exact Hnew.
Qed.

Lemma IndexTsx_step_currentLive e w :
  supersededAborted w -> controllersFresh w -> currentLive w ->
  currentLive (IndexTsx.step e w).
Proof.
  intros Hs Hf Hl.
  assert (Hreset : forall w0, supersededAborted w0 -> controllersFresh w0 ->
            currentLive w0 -> currentLive (IndexTsx.resetEffect w0)).
  { intros w0 H1 H2 H3. unfold IndexTsx.resetEffect.
    apply IndexTsx_begin_currentLive; assumption. }
  destruct e as [t|r|now| |i o now]; cbn [IndexTsx.step].
  - unfold IndexTsx.clickTab. destruct (TabType_eqb t _); [exact Hl |].
    unfold IndexTsx.savedTabEffect.
    match goal with |- context [if ?b then _ else _] => destruct b end;
      [change (currentLive (IndexTsx.resetEffect
                 (IndexTsx.withApp (IndexTsx.setActiveTab t) w))) |];
      apply Hreset; assumption.
  - destruct (TabType_eqb _ saved); [exact Hl |].
    unfold IndexTsx.clickRange. destruct (TimeRange_eqb r _); [exact Hl |].
    apply Hreset; assumption.
  - unfold IndexTsx.handleRefresh.
    match goal with
    | |- currentLive (IndexTsx.withApp _ ?w1) =>
        change (currentLive w1)
    end.
    apply IndexTsx_begin_currentLive; assumption.
  - unfold IndexTsx.sentinelIntersects, IndexTsx.loadMore.
    repeat match goal with
           | |- context [if ?b then _ else _] => destruct b
           end; try exact Hl.
    apply IndexTsx_begin_currentLive; assumption.
  - unfold IndexTsx.settle.
    destruct (IndexTsx.inflight w !! i) as [[c rq]|]; exact Hl.
Qed.

Lemma IndexTsx_run_currentLive es :
  currentLive (IndexTsx.run es IndexTsx.mount).
Proof.
  induction es as [|e es IH] using rev_ind.
  - intros c Hc. vm_compute in Hc. inversion Hc; subst. vm_compute.
    set_solver.
  - rewrite IndexTsx_run_app.
    destruct (IndexTsx_run_invariant es) as [Hs Hf].
    apply IndexTsx_step_currentLive; assumption.
Qed.

(** X14. In the entry point the request of the latest fetch is never
    aborted: when it settles with a page, the page is applied (it replaces
    the sequence for page 1 and is appended without known identifiers
    otherwise), both loading flags are cleared and no error is recorded. *)
Theorem IndexTsx_latest_fetch_is_applied :
  forall (es : list IndexTsx.Event) (i : nat) (controller : nat)
         (rq : Request) (status : Z) (items : list GithubRepo) (now : Z),
    let w := IndexTsx.run es IndexTsx.mount in
    let s' := IndexTsx.app
                (IndexTsx.settle i (Response status (Json (Some items))) now w) in
    IndexTsx.inflight w !! i = Some (controller, rq) ->
    IndexTsx.requestController w = Some controller ->
    ok status = true ->
    (controller ∉ IndexTsx.aborted w)
    /\ IndexTsx.repos s'
       = (if req_page rq =? 1 then items
          else IndexTsx.appendNew (IndexTsx.repos (IndexTsx.app w)) items)
    /\ IndexTsx.isLoading s' = false
    /\ IndexTsx.isFetchingMore s' = false
    /\ IndexTsx.lastUpdated s' = Some now
    /\ IndexTsx.errorMessage s' = IndexTsx.errorMessage (IndexTsx.app w).
Proof.
  intros es i c rq status items now w s' Hi Hc Hok.
  pose proof (IndexTsx_run_currentLive es c Hc) as Hlive. fold w in Hlive.
  split; [exact Hlive |].
  subst s'. unfold IndexTsx.settle. rewrite Hi.
  rewrite (bool_decide_eq_false_2 _ Hlive). cbn [IndexTsx.app].
  unfold IndexTsx.fetchRepos_resume. rewrite Hok. cbn [negb].
  destruct (IndexTsx.app w); simpl.
  destruct (req_page rq =? 1); repeat split; reflexivity.
Qed.

(** The first page of the first session arrives. *)
Lemma IndexTsx_latest_fetch_is_applied_witness :
  IndexTsx.inflight (IndexTsx.run [] IndexTsx.mount) !! 0%nat
  = Some (0%nat, mkRequest trending week 1)
  /\ IndexTsx.requestController (IndexTsx.run [] IndexTsx.mount) = Some 0%nat
  /\ ok 200 = true
  /\ IndexTsx.repos
       (IndexTsx.app
          (IndexTsx.settle 0 (Response 200 (Json (Some [repoA; repoB]))) 5
             (IndexTsx.run [] IndexTsx.mount)))
     = [repoA; repoB].
Proof.
  assert (H1 : IndexTsx.inflight (IndexTsx.run [] IndexTsx.mount) !! 0%nat
               = Some (0%nat, mkRequest trending week 1)) by reflexivity.
  assert (H2 : IndexTsx.requestController (IndexTsx.run [] IndexTsx.mount)
               = Some 0%nat) by reflexivity.
  assert (H3 : ok 200 = true) by reflexivity.
  split; [exact H1 | split; [exact H2 | split; [exact H3 |]]].
  exact (proj1 (proj2 (IndexTsx_latest_fetch_is_applied [] 0 0
                         (mkRequest trending week 1) 200 [repoA; repoB] 5
                         H1 H2 H3))).
Defined.

(** X15. In the entry point, in keyword mode (smart mode off, no
    smart-filter result), with an ASCII query that is not blank and a source
    whose names, owner logins, descriptions, languages and topics are ASCII
    text, an entry is retained exactly when it is in the source and the
    trimmed query occurs in its name, its owner login, its description, its
    language or one of its topics, whatever the case of the letters. *)
Theorem IndexTsx_keyword_mode_ascii :
  forall (activeTab : TabType) (repos : list GithubRepo)
         (savedRepos : list SavedRepo) (searchQuery : string)
         (r : GithubRepo),
    let src := match activeTab with saved => savedRepos | _ => repos end in
    asciiText searchQuery = true ->
    (forall x, In x src -> asciiRepo x = true) ->
    trim searchQuery <> "" ->
    In r (IndexTsx.filteredRepos activeTab repos savedRepos searchQuery
            None false)
    <-> In r src /\ keywordMatch_spec (trim searchQuery) r.
Proof.
  intros activeTab repos savedRepos q r src _ _ Ht.
  apply IndexTsx_keyword_mode. exact Ht.
Qed.

(** The query gate, followed by a blank, keeps the repository gateway and
    drops the repository parser. *)
Lemma IndexTsx_keyword_mode_ascii_witness :
  asciiText "gate " = true
  /\ (forall x, In x [repoA; repoB] -> asciiRepo x = true)
  /\ trim "gate " <> ""
  /\ In repoA (IndexTsx.filteredRepos trending [repoA; repoB] [] "gate "
                 None false)
  /\ ~ In repoB (IndexTsx.filteredRepos trending [repoA; repoB] [] "gate "
                   None false).
Proof.
  assert (Ha : asciiText "gate " = true) by reflexivity.
  assert (Hr : forall x, In x [repoA; repoB] -> asciiRepo x = true).
  { intros x [<-|[<-|[]]]; reflexivity. }
  assert (Ht : trim "gate " <> "") by (vm_compute; discriminate).
  split; [exact Ha | split; [exact Hr | split; [exact Ht | split]]].
  - apply (proj2 (IndexTsx_keyword_mode_ascii trending [repoA; repoB] []
                    "gate " repoA Ha Hr Ht)).
    split; [left; reflexivity |].
    left. apply includes_true_iff. reflexivity.
  - intros H. vm_compute in H. destruct H as [H|[]]. discriminate H.
Defined.

(** X16. The load effect of the entry point never throws: a record that
    parses becomes the saved collection, a record on which [JSON.parse]
    throws leaves the collection as it is and logs one warning, and an
    absent or empty record changes nothing. *)
Theorem IndexTsx_load_is_total :
  forall (parse : string -> option (list SavedRepo)) (stored : option string)
         (s : IndexTsx.State),
    exists s' log,
      IndexTsx.loadSavedRepos parse stored s = Returns (s', log)
      /\ (forall text parsed,
            stored = Some text -> text <> "" -> parse text = Some parsed ->
            IndexTsx.savedRepos s' = parsed /\ log = [])
      /\ (forall text,
            stored = Some text -> text <> "" -> parse text = None ->
            s' = s /\ log = ["Failed to read saved repos from storage."])
      /\ (stored = None \/ stored = Some "" -> s' = s /\ log = []).
Proof.
  intros parse stored s. unfold IndexTsx.loadSavedRepos.
  destruct stored as [text|].
  - destruct text as [|c text].
    + exists s, []. split; [reflexivity |]. split; [|split].
      * intros text parsed E Hne. inversion E; subst. contradiction.
      * intros text E Hne. inversion E; subst. contradiction.
      * intros _. split; reflexivity.
    + cbn [truthy]. destruct (parse (String c text)) as [parsed|] eqn:Hp.
      * eexists _, _. split; [reflexivity |]. split; [|split].
        -- intros text' parsed' E _ Hp'. inversion E; subst.
           rewrite Hp in Hp'. inversion Hp'; subst.
           destruct s; split; reflexivity.
        -- intros text' E _ Hp'. inversion E; subst. congruence.
        -- intros [E|E]; discriminate E.
      * eexists _, _. split; [reflexivity |]. split; [|split].
        -- intros text' parsed' E _ Hp'. inversion E; subst. congruence.
        -- intros text' E _ _. split; reflexivity.
        -- intros [E|E]; discriminate E.
  - exists s, []. split; [reflexivity |]. split; [|split].
    + intros text parsed E. discriminate E.
    + intros text E. discriminate E.
    + intros _. split; reflexivity.
Qed.

(** The truncated object is rejected and reported. *)
Lemma IndexTsx_load_is_total_witness :
  "{" <> "" /\ parseSample "{" = None
  /\ IndexTsx.loadSavedRepos parseSample (Some "{") IndexTsx.initial
     = Returns (IndexTsx.initial, ["Failed to read saved repos from storage."]).
Proof.
  split; [discriminate | split; [reflexivity |]].
  destruct (IndexTsx_load_is_total parseSample (Some "{") IndexTsx.initial)
    as (s' & log & E & _ & H & _).
  destruct (H "{" eq_refl ltac:(discriminate) eq_refl) as [-> ->].
  exact E.
Defined.

(** X17. In the entry point a response that is not [ok] ends pagination,
    clears both loading flags, keeps the repositories and records a
    message; the message is the rate-limit one for status 403 and for no
    other status.  A new fetch for a feed tab clears the message. *)
Theorem IndexTsx_error_messages :
  forall (rq : Request) (status : Z) (body : Body) (now : Z)
         (s : IndexTsx.State),
    ok status = false ->
    let s' := IndexTsx.fetchRepos_resume rq false (Response status body) now s in
    IndexTsx.hasMore s' = false
    /\ IndexTsx.isLoading s' = false
    /\ IndexTsx.isFetchingMore s' = false
    /\ IndexTsx.repos s' = IndexTsx.repos s
    /\ IndexTsx.errorMessage s' = Some (IndexTsx.statusMessage status)
    /\ (IndexTsx.statusMessage status = IndexTsx.statusMessage 403
        <-> status = 403)
    /\ (forall t r p w,
          t <> saved ->
          IndexTsx.errorMessage
            (IndexTsx.app (IndexTsx.fetchRepos_begin t r p w)) = None).
Proof.
  intros rq status body now s Hok s'. subst s'.
  unfold IndexTsx.fetchRepos_resume. rewrite Hok. cbn [negb].
  destruct s; simpl. repeat split; try reflexivity.
  - unfold IndexTsx.statusMessage.
    destruct (Z.eqb_spec status 403) as [->|Hne]; [reflexivity |].
    simpl. intros H. discriminate H.
  - intros ->. reflexivity.
  - intros t r p w Ht. unfold IndexTsx.fetchRepos_begin.
    destruct t; try contradiction; simpl;
      destruct (IndexTsx.app w); simpl; destruct (p =? 1); reflexivity.
Qed.

(** A rate-limited first page. *)
Lemma IndexTsx_error_messages_witness :
  ok 403 = false
  /\ IndexTsx.errorMessage
       (IndexTsx.fetchRepos_resume (mkRequest trending week 1) false
          (Response 403 (Json None)) 0 (IndexTsx.app IndexTsx.mount))
     = Some "GitHub API rate limit hit. Please wait a bit or add an authenticated proxy.".
Proof.
  split; [reflexivity |].
  destruct (IndexTsx_error_messages (mkRequest trending week 1) 403 (Json None)
              0 (IndexTsx.app IndexTsx.mount) eq_refl) as (_ & _ & _ & _ & H & _).
  exact H.
Defined.



(** ** Two implementations of the page merge *)

Lemma appendNew_filters_agree prev r :
  is_Some_b (List.find (fun pi => id pi =? id r) prev)
  = bool_decide (id r ∈ (list_to_set (ids prev) : gset Z)).
Proof.
  destruct (List.find _ prev) eqn:Hf; simpl; symmetry.
  - apply bool_decide_eq_true. apply elem_of_list_to_set, list_elem_of_In.
    eapply find_id_Some; eauto.
  - apply bool_decide_eq_false. rewrite elem_of_list_to_set, list_elem_of_In.
    apply find_id_None. exact Hf.
Qed.

(** X19. The merge of a later page in the entry point, which searches the
    previous sequence for each new item, and the merge in [src/App.tsx],
    which builds the set of known identifiers first, give the same
    sequence; it keeps the previous sequence as a prefix and, when the
    previous sequence and the page each list no identifier twice, lists no
    identifier twice. *)
Theorem appendNew_implementations_agree :
  forall prev items : list GithubRepo,
    IndexTsx.appendNew prev items = AppTsx.appendNew prev items
    /\ (exists newItems, IndexTsx.appendNew prev items = prev ++ newItems
                         /\ sublist newItems items)
    /\ (List.NoDup (ids prev) -> List.NoDup (ids items) ->
        List.NoDup (ids (IndexTsx.appendNew prev items))).
Proof.
  intros prev items.
  assert (E : IndexTsx.appendNew prev items = AppTsx.appendNew prev items).
  { unfold IndexTsx.appendNew, AppTsx.appendNew. f_equal.
    apply filter_ext. intros r. rewrite appendNew_filters_agree. reflexivity. }
  split; [exact E | split].
  - rewrite E. destruct (appendNew_spec prev items) as [new [H1 [H2 _]]].
    exists new. split; assumption.
  - rewrite E. apply appendNew_NoDup.
Qed.

(** Two pages that overlap in one repository. *)
Lemma appendNew_implementations_agree_witness :
  List.NoDup (ids [repoA]) /\ List.NoDup (ids [repoA; repoB])
  /\ List.NoDup (ids (IndexTsx.appendNew [repoA] [repoA; repoB])).
Proof.
  assert (H1 : List.NoDup (ids [repoA])).
  { repeat constructor. simpl. tauto. }
  assert (H2 : List.NoDup (ids [repoA; repoB])).
  { repeat constructor; simpl; intros H;
      repeat (destruct H as [H|H]; try discriminate H); exact H. }
  split; [exact H1 | split; [exact H2 |]].
  exact (proj2 (proj2 (appendNew_implementations_agree [repoA] [repoA; repoB]))
           H1 H2).
Defined.

(** ** A change of feed *)

(** X12. A change to another feed tab, and a change of the range on a feed
    tab, start a new session: the page counter is 1, the repository
    sequence is empty, has-more is true, the smart-filter result is cleared,
    the loading flag is set and the request for page 1 of the new category
    and range is sent. *)
Theorem feed_change_resets :
  forall (s : AppTsx.State),
    (forall t,
        t <> saved -> t <> AppTsx.activeTab s ->
        let '(s', rq) := AppTsx.clickTab t s in
        AppTsx.activeTab s' = t /\ AppTsx.page s' = 1 /\ AppTsx.repos s' = []
        /\ AppTsx.hasMore s' = true /\ AppTsx.aiFilteredIds s' = None
        /\ AppTsx.isLoading s' = true
        /\ rq = Some (mkRequest t (AppTsx.activeRange s) 1))
    /\ (forall r,
          AppTsx.activeTab s <> saved -> r <> AppTsx.activeRange s ->
          let '(s', rq) := AppTsx.clickRange r s in
          AppTsx.activeRange s' = r /\ AppTsx.page s' = 1
          /\ AppTsx.repos s' = []
          /\ AppTsx.hasMore s' = true /\ AppTsx.aiFilteredIds s' = None
          /\ AppTsx.isLoading s' = true
          /\ rq = Some (mkRequest (AppTsx.activeTab s) r 1)).
Proof.
  intros s. destruct s as [t0 r0 rp sv il ifm pg hm q sm af ai ts]. split.
  - intros t Hs Ht. simpl in Ht. unfold AppTsx.clickTab. simpl.
    destruct (TabType_eqb t t0) eqn:E;
      [apply TabType_eqb_eq in E; contradiction |].
    destruct t; try contradiction; repeat split; reflexivity.
  - intros r Hs Hr. simpl in Hs, Hr. unfold AppTsx.clickRange. simpl.
    destruct (TimeRange_eqb r r0) eqn:E;
      [apply TimeRange_eqb_eq in E; contradiction |].
    destruct t0; try contradiction; repeat split; reflexivity.
Qed.

(** From trending and this week to this month. *)
Lemma feed_change_resets_witness :
  AppTsx.activeTab (AppTsx.app AppTsx.mount) <> saved
  /\ month <> AppTsx.activeRange (AppTsx.app AppTsx.mount)
  /\ snd (AppTsx.clickRange month (AppTsx.app AppTsx.mount))
     = Some (mkRequest trending month 1).
Proof.
  assert (H1 : AppTsx.activeTab (AppTsx.app AppTsx.mount) <> saved)
    by (vm_compute; discriminate).
  assert (H2 : month <> AppTsx.activeRange (AppTsx.app AppTsx.mount))
    by (vm_compute; discriminate).
  split; [exact H1 | split; [exact H2 |]].
  pose proof (proj2 (feed_change_resets (AppTsx.app AppTsx.mount)) month H1 H2)
    as H.
  destruct (AppTsx.clickRange month (AppTsx.app AppTsx.mount)) as [s' rq].
  destruct H as (_ & _ & _ & _ & _ & _ & H). exact H.
Defined.

(** ** The text filter and the smart filter *)

(** In smart mode the entry point never applies the keyword filter. *)
Lemma IndexTsx_smart_mode_skips activeTab repos savedRepos q ids0 :
  IndexTsx.filteredRepos activeTab repos savedRepos q ids0 true
  = match ids0 with
    | Some l =>
        List.filter (fun r => existsb (Z.eqb (id r)) l)
          (match activeTab with saved => savedRepos | _ => repos end)
    | None => match activeTab with saved => savedRepos | _ => repos end
    end.
Proof.
  unfold IndexTsx.filteredRepos. rewrite orb_true_r. reflexivity.
Qed.

(** C2, as stated, fails: the feed holds the repository parser, smart mode
    is switched on and rust is typed; no smart-filter result is held and no
    AI filter request is in flight, so the claim has the keyword filter
    applied, which keeps nothing; the composed list is the feed, unchanged.
    The entry point returns the feed unchanged at this input as well. *)
Lemma C2_counterexample :
  ~ text_filter_claim
      (AppTsx.run
         [AppTsx.Settle 0 (okPage [repoB]); AppTsx.ToggleSmartFilterMode;
          AppTsx.ChangeQuery "rust"] AppTsx.mount).
Proof.
  intros H. unfold text_filter_claim in H.
  assert (Hq : "rust" <> "") by discriminate.
  specialize (H Hq). vm_compute in H. discriminate H.
Qed.

(** C2, amended. In the view composition, for every input where the query
    is non-empty: with smart mode on and a smart-filter result that is
    non-null, text filtering is skipped (the current result is returned
    unchanged); with smart mode on, a null smart-filter result and the flag
    [isAiFiltering] clear, it is skipped as well, and the flag is clear
    whenever no AI filter request is in flight; with smart mode off, the
    keyword filter is applied to the current result.  Nothing is said of
    smart mode with a null result while an AI filter request is in flight. *)
Theorem C2_text_filter_by_mode :
  (forall (activeTab : TabType) (repos : list GithubRepo)
          (savedRepos : list SavedRepo) (searchQuery : string)
          (aiFilteredIds : option (list Z))
          (isSmartFilterMode isAiFiltering : bool),
      let current := AppTsx.aiStage aiFilteredIds
                       (AppTsx.source activeTab repos savedRepos) in
      let view := AppTsx.filteredRepos activeTab repos savedRepos searchQuery
                    aiFilteredIds isSmartFilterMode isAiFiltering in
      searchQuery <> "" ->
      (isSmartFilterMode = true -> aiFilteredIds <> None -> view = current)
      /\ (isSmartFilterMode = true -> aiFilteredIds = None ->
          isAiFiltering = false -> view = current)
      /\ (isSmartFilterMode = false ->
          view = List.filter (AppTsx.keywordMatch searchQuery) current))
  /\ (forall es : list AppTsx.Event,
        let w := AppTsx.run es AppTsx.mount in
        AppTsx.aiInflight w = 0%nat ->
        AppTsx.isAiFiltering (AppTsx.app w) = false)
  /\ (forall es : list AppTsx.Event,
        let w := AppTsx.run es AppTsx.mount in
        let s := AppTsx.app w in
        AppTsx.searchQuery s <> "" ->
        AppTsx.isSmartFilterMode s = true ->
        AppTsx.aiFilteredIds s = None ->
        AppTsx.aiInflight w = 0%nat ->
        AppTsx.visible s
        = AppTsx.source (AppTsx.activeTab s) (AppTsx.repos s)
            (AppTsx.savedRepos s)).
Proof.
  assert (Hflag : forall es,
    AppTsx.aiInflight (AppTsx.run es AppTsx.mount) = 0%nat ->
    AppTsx.isAiFiltering (AppTsx.app (AppTsx.run es AppTsx.mount)) = false).
  { intros es H0. destruct (run_indicatorsBacked es) as [_ Hai].
    destruct (AppTsx.isAiFiltering (AppTsx.app (AppTsx.run es AppTsx.mount)));
      [|reflexivity].
    specialize (Hai eq_refl). lia. }
  split; [|split].
  - intros activeTab repos savedRepos q ids0 smart flag current view Hq.
    subst current view. rewrite (filteredRepos_nonempty _ _ _ _ _ _ _ Hq).
    split; [|split].
    + intros -> Hids. destruct ids0; [reflexivity | congruence].
    + intros -> -> ->. reflexivity.
    + intros ->. reflexivity.
  - intros es w. exact (Hflag es).
  - intros es w s Hq Hsmart Hids H0. subst s w. unfold AppTsx.visible.
    rewrite (filteredRepos_nonempty _ _ _ _ _ _ _ Hq).
    rewrite Hsmart, Hids, (Hflag es H0). reflexivity.
Qed.

(** Smart mode is switched on and rust is typed over a feed that holds the
    repository parser: nothing is in flight and the feed is shown as it
    is. *)
Lemma C2_text_filter_by_mode_witness :
  "rust" <> ""
  /\ AppTsx.filteredRepos trending [repoB] [] "rust" None true false = [repoB]
  /\ AppTsx.filteredRepos trending [repoA; repoB] [] "gate" None false false
     = [repoA]
  /\ AppTsx.visible
       (AppTsx.app
          (AppTsx.run
             [AppTsx.Settle 0 (okPage [repoB]); AppTsx.ToggleSmartFilterMode;
              AppTsx.ChangeQuery "rust"] AppTsx.mount))
     = [repoB].
Proof.
  assert (Hq : "rust" <> "") by discriminate.
  assert (Hg : "gate" <> "") by discriminate.
  split; [exact Hq | split; [|split]].
  - exact (proj1 (proj2 (proj1 C2_text_filter_by_mode trending [repoB] []
             "rust" None true false Hq)) eq_refl eq_refl eq_refl).
  - rewrite (proj2 (proj2 (proj1 C2_text_filter_by_mode trending
               [repoA; repoB] [] "gate" None false false Hg)) eq_refl).
    reflexivity.
  - rewrite (proj2 (proj2 C2_text_filter_by_mode)
               [AppTsx.Settle 0 (okPage [repoB]);
                AppTsx.ToggleSmartFilterMode; AppTsx.ChangeQuery "rust"]);
      [reflexivity | discriminate | reflexivity | reflexivity | reflexivity].
Defined.
